(** * greenhouse_explore.py: the axis-range heuristic and the wide-to-long reshape

    A shallow embedding of the two functions of [greenhouse_explore.py] that
    carry logic, [ytrim_from] and [to_long] (with the module-level list
    [time_cols]), and the properties of them that the specification states.

    - Python floats are IEEE-754 binary64 numbers: they are embedded as Rocq's
      primitive [float], whose operations are the same binary64 operations.
      Missing cells are NaN, as in pandas.
    - A raised exception is the [Raise] case of the result type [py].
    - A pandas [DataFrame] is a list of named columns, in column order; the
      cells are dynamically typed values, and a column has the dtype that
      pandas infers from its cells.
    - The calls into pandas, numpy and matplotlib ([melt], [PeriodIndex],
      [to_numeric], [set_ylim]) are embedded with the behaviour of the 2.x
      releases of pandas and the 3.x releases of matplotlib.
    - A pandas [Timestamp] is its number of nanoseconds since 1970-01-01. *)

From Stdlib Require Import Bool Arith ZArith Lia Ascii String DecimalString List.
From Stdlib Require Import Floats.
Import ListNotations.

Set Warnings "-inexact-float".

(* ================================================================== *)
(** * Python results *)

Inductive exn : Type :=
| KeyError
| ValueError
| DateParseError
| OutOfBoundsDatetime
| AttributeError.

Inductive py (A : Type) : Type :=
| Ok (a : A)
| Raise (e : exn).

Arguments Ok {A} a.
Arguments Raise {A} e.

Definition bind {A B : Type} (c : py A) (k : A -> py B) : py B :=
  match c with
  | Ok a => k a
  | Raise e => Raise e
  end.

Notation "x <- c ;; k" := (bind c (fun x => k))
  (at level 61, c at next level, right associativity).

Fixpoint mapM {A B : Type} (f : A -> py B) (l : list A) : py (list B) :=
  match l with
  | [] => Ok []
  | x :: r => y <- f x ;; ys <- mapM f r ;; Ok (y :: ys)
  end.

Definition raises {A : Type} (c : py A) : Prop := exists e, c = Raise e.

(* ================================================================== *)
(** * Floating-point helpers *)

Section PyFloat.
Open Scope float_scope.

(** Python's builtin [max(a, b)]: the first argument is kept unless the second
    compares greater. *)
Definition py_max (a b : float) : float := if a <? b then b else a.

(** numpy's [minimum] and [maximum] on two doubles, the reduction steps of
    [Series.min] and [Series.max]. *)
Definition np_minimum (a b : float) : float :=
  if (a <? b) || is_nan a then a else b.

Definition np_maximum (a b : float) : float :=
  if (b <=? a) || is_nan a then a else b.

(** [|a - b| <= tol], the reading of "approximately" used below. *)
Definition approx (tol a b : float) : bool := abs (a - b) <=? tol.

(** The signs of a double, read on its specification: below zero, above
    zero. *)
Definition sf_neg (x : spec_float) : bool := SFltb x (S754_zero false).
Definition sf_pos (x : spec_float) : bool := SFltb (S754_zero false) x.

End PyFloat.

(* ================================================================== *)
(** * The axis-range heuristic, [ytrim_from] (lines 10-30) *)

Section Ytrim.
Open Scope float_scope.

(** What [data_like] holds: a 2-D collection of numbers given row by row; a
    missing entry is NaN. *)
Definition grid : Type := list (list float).

(** [pd.DataFrame(data_like).stack().astype(float)]: the cells in row-major
    order, the missing ones dropped. *)
Definition stack (d : grid) : list float :=
  filter (fun x => negb (is_nan x)) (List.concat d).

(** [vals.min()] and [vals.max()]: NaN on an empty series. *)
Definition series_min (vals : list float) : float :=
  match vals with
  | [] => nan
  | x :: r => fold_left np_minimum r x
  end.

Definition series_max (vals : list float) : float :=
  match vals with
  | [] => nan
  | x :: r => fold_left np_maximum r x
  end.

Definition default_pad : float := 0.05.
Definition default_strength : float := 0.3.
Definition epsilon : float := 1e-9.

(** Lines 16-28 and the arguments of the call of line 30. The function makes
    one call, [set_ylim(ymin, ymax)], on the axes it is given (or on the
    current axes) and returns nothing; [ytrim_from] is the pair of arguments
    of that call, which no statement of lines 16-28 fails to compute on
    numeric data. What the call does with them is [ytrim_from_on_axes]. *)
Definition ytrim_from (data_like : grid) (pad : float) (exaggerate floor0 : bool)
    (strength : float) : py (float * float) :=
  let vals := stack data_like in
  let dmin := series_min vals in
  let dmax := series_max vals in
  let span := py_max (dmax - dmin) epsilon in
  let ymin := if exaggerate
              then dmax - span * (1 - strength)
              else dmin - span * pad in
  let ymax := dmax + span * pad in
  let ymin := if floor0 then py_max 0 ymin else ymin in
  Ok (ymin, ymax).

(** [Axes.set_ylim(bottom, top)] of matplotlib as its caller sees it: a limit
    that is NaN or infinite is refused with [ValueError] ("Axis limits cannot
    be NaN or Inf") before anything is changed; otherwise the two limits are
    taken. *)
Definition set_ylim (bottom top : float) : py (float * float) :=
  if is_finite bottom && is_finite top then Ok (bottom, top)
  else Raise ValueError.

(** The whole call, line 30 included, when [ax] (or the current axes) is a
    matplotlib [Axes]: the limits that the axes take. *)
Definition ytrim_from_on_axes (data_like : grid) (pad : float)
    (exaggerate floor0 : bool) (strength : float) : py (float * float) :=
  limits <- ytrim_from data_like pad exaggerate floor0 strength ;;
  set_ylim (fst limits) (snd limits).

End Ytrim.

(* ================================================================== *)
(** * Calendar arithmetic of pandas timestamps *)

Section Calendar.
Open Scope Z_scope.

(** A [Timestamp] counts nanoseconds since 1970-01-01T00:00:00. *)
Definition Timestamp : Type := Z.

Definition ns_per_day : Z := 86400 * 1000000000.

(** Days since 1970-01-01 of a proleptic Gregorian date. *)
Definition days_from_civil (y m d : Z) : Z :=
  let y' := if m <=? 2 then y - 1 else y in
  let era := y' / 400 in
  let yoe := y' - era * 400 in
  let mp := if 2 <? m then m - 3 else m + 9 in
  let doy := (153 * mp + 2) / 5 + d - 1 in
  let doe := yoe * 365 + yoe / 4 - yoe / 100 + doy in
  era * 146097 + doe - 719468.

(** The date (year, month, day) of a day number. *)
Definition civil_from_days (z : Z) : Z * Z * Z :=
  let z := z + 719468 in
  let era := z / 146097 in
  let doe := z - era * 146097 in
  let yoe := (doe - doe / 1460 + doe / 36524 - doe / 146096) / 365 in
  let doy := doe - (365 * yoe + yoe / 4 - yoe / 100) in
  let mp := (5 * doy + 2) / 153 in
  let d := doy - (153 * mp + 2) / 5 + 1 in
  let m := if mp <? 10 then mp + 3 else mp - 9 in
  let y := yoe + era * 400 in
  ((if m <=? 2 then y + 1 else y), m, d).

(** The fields of a timestamp: [.year], [.month], [.day], [.hour],
    [.minute], [.second] and the nanoseconds within the second. *)
Definition dt_year (t : Timestamp) : Z := fst (fst (civil_from_days (t / ns_per_day))).
Definition dt_month (t : Timestamp) : Z := snd (fst (civil_from_days (t / ns_per_day))).
Definition dt_day (t : Timestamp) : Z := snd (civil_from_days (t / ns_per_day)).
Definition dt_hour (t : Timestamp) : Z := (t mod ns_per_day) / 3600000000000.
Definition dt_minute (t : Timestamp) : Z := (t mod 3600000000000) / 60000000000.
Definition dt_second (t : Timestamp) : Z := (t mod 60000000000) / 1000000000.
Definition dt_nanos (t : Timestamp) : Z := t mod 1000000000.

Definition dt_fields (t : Timestamp) : Z * Z * Z * (Z * Z * Z * Z) :=
  (dt_year t, dt_month t, dt_day t,
   (dt_hour t, dt_minute t, dt_second t, dt_nanos t)).

(** A quarterly [Period] (frequency ["Q"], year ending in December) is the
    number of quarters since 1970Q1. *)
Definition Period : Type := Z.

Definition period_of (year quarter : Z) : Period := (year - 1970) * 4 + (quarter - 1).

(** [Period.to_timestamp(how="start")]: midnight of the quarter's first day. *)
Definition period_start (p : Period) : Timestamp :=
  days_from_civil (1970 + p / 4) (3 * (p mod 4) + 1) 1 * ns_per_day.

(** The bounds of a 64-bit nanosecond timestamp. *)
Definition Timestamp_min : Z := - 2 ^ 63 + 1.
Definition Timestamp_max : Z := 2 ^ 63 - 1.

(** [Period.to_timestamp(how="end")]: pandas takes the start of the following
    period and steps back one nanosecond. *)
Definition period_end (p : Period) : py Timestamp :=
  let next := period_start (p + 1) in
  if (Timestamp_min <=? next) && (next <=? Timestamp_max)
  then Ok (next - 1)
  else Raise OutOfBoundsDatetime.

End Calendar.

(* ================================================================== *)
(** * Strings: [str(int)], [str.startswith], quarter labels *)

Section Labels.

(** Python's [str(n)] for a non-negative integer. *)
Definition py_str (n : nat) : string := NilZero.string_of_uint (Nat.to_uint n).

(** [c.startswith(prefixes)] with a tuple of prefixes. *)
Definition startswith (c : string) (prefixes : list string) : bool :=
  existsb (fun p => String.prefix p c) prefixes.

Definition digit_of (c : ascii) : option Z :=
  let n := Z.of_nat (nat_of_ascii c) in
  if ((48 <=? n) && (n <=? 57))%Z then Some (n - 48)%Z else None.

(** The reading of a quarter label by [pd.PeriodIndex(..., freq="Q")]. The
    embedding covers the label form of the data set, four digits of the year,
    the letter Q and the digit of the quarter; it rejects every other
    spelling, some of which pandas would accept. *)
Definition parse_quarter_label (s : string) : py Period :=
  match list_ascii_of_string s with
  | [y1; y2; y3; y4; q; n] =>
      match digit_of y1, digit_of y2, digit_of y3, digit_of y4, digit_of n with
      | Some a, Some b, Some c, Some d, Some k =>
          if (Ascii.eqb q "Q" && (1 <=? k)%Z && (k <=? 4)%Z)%bool
          then Ok (period_of (a * 1000 + b * 100 + c * 10 + d) k)
          else Raise DateParseError
      | _, _, _, _, _ => Raise DateParseError
      end
  | _ => Raise DateParseError
  end.

(** [pd.PeriodIndex(labels, freq="Q").to_timestamp(how="end")] on one label. *)
Definition quarter_end_of_label (s : string) : py Timestamp :=
  p <- parse_quarter_label s ;; period_end p.

(** The label of quarter [q] of year [y], as the data set writes it. *)
Definition quarter_label (y q : nat) : string :=
  (py_str y ++ "Q" ++ py_str q)%string.

(** The last day of the closing month of a quarter: March 31, June 30,
    September 30, December 31. *)
Definition quarter_last_day (q : Z) : Z :=
  if ((q =? 2) || (q =? 3))%Z then 30%Z else 31%Z.

(** The fields of the last instant of quarter [q] of year [y], and of the
    instant that follows it. *)
Definition quarter_last_instant (y q : Z) : Z * Z * Z * (Z * Z * Z * Z) :=
  (y, 3 * q, quarter_last_day q, (23, 59, 59, 999999999))%Z.

Definition next_quarter_first_instant (y q : Z) : Z * Z * Z * (Z * Z * Z * Z) :=
  (if (q =? 4)%Z then (y + 1, 1, 1, (0, 0, 0, 0)) else (y, 3 * q + 1, 1, (0, 0, 0, 0)))%Z.

Definition fields_eqb (a b : Z * Z * Z * (Z * Z * Z * Z)) : bool :=
  let '(y1, m1, d1, (h1, i1, s1, n1)) := a in
  let '(y2, m2, d2, (h2, i2, s2, n2)) := b in
  ((y1 =? y2) && (m1 =? m2) && (d1 =? d2) && (h1 =? h2) && (i1 =? i2)
   && (s1 =? s2) && (n1 =? n2))%Z.

(** The check that the label of quarter [q] of year [y] is read as the last
    instant of that quarter. *)
Definition quarter_end_check (y q : nat) : bool :=
  match quarter_end_of_label (quarter_label y q) with
  | Ok t =>
      fields_eqb (dt_fields t) (quarter_last_instant (Z.of_nat y) (Z.of_nat q))
      && fields_eqb (dt_fields (t + 1)%Z)
           (next_quarter_first_instant (Z.of_nat y) (Z.of_nat q))
  | Raise _ => false
  end.

End Labels.

(* ================================================================== *)
(** * Data frames *)

Section Frames.

(** A cell: text, a double (NaN when missing), a 64-bit integer, a timestamp
    or the missing timestamp NaT. A column is the list of its cells; its
    dtype is the one pandas infers from them: int64 for integers only,
    float64 for doubles, datetime64 for timestamps and NaT, object for text
    and for mixed cells. *)
Inductive value : Type :=
| VStr (s : string)
| VFloat (f : float)
| VInt (z : Z)
| VTime (t : Timestamp)
| VNaT.

Definition Series : Type := list value.

(** The named columns of a frame, in column order; every column holds one
    cell per row. *)
Definition DataFrame : Type := list (string * Series).

Definition columns (frame : DataFrame) : list string := map fst frame.

Definition nrows (frame : DataFrame) : nat :=
  match frame with
  | [] => 0
  | (_, s) :: _ => length s
  end.

(** The frames pandas builds from a CSV file: distinct column names and
    columns of one length. *)
Definition well_formed (frame : DataFrame) : Prop :=
  NoDup (columns frame) /\ Forall (fun c => length (snd c) = nrows frame) frame.

Definition lookup (frame : DataFrame) (name : string) : option Series :=
  match find (fun c => String.eqb (fst c) name) frame with
  | Some c => Some (snd c)
  | None => None
  end.

Definition has_column (frame : DataFrame) (name : string) : bool :=
  match lookup frame name with
  | Some _ => true
  | None => false
  end.

(** [frame[name]] as an expression. *)
Definition getitem (frame : DataFrame) (name : string) : py Series :=
  match lookup frame name with
  | Some s => Ok s
  | None => Raise KeyError
  end.

Definition values_of (frame : DataFrame) (name : string) : Series :=
  match lookup frame name with
  | Some s => s
  | None => []
  end.

(** [frame[name] = s]: the column is replaced where it stands, or added last. *)
Fixpoint setitem (frame : DataFrame) (name : string) (s : Series) : DataFrame :=
  match frame with
  | [] => [(name, s)]
  | (n, old) :: rest =>
      if String.eqb n name then (name, s) :: rest
      else (n, old) :: setitem rest name s
  end.

(** Selection of the rows where a boolean mask holds. *)
Fixpoint select {A : Type} (mask : list bool) (l : list A) : list A :=
  match mask, l with
  | b :: m, x :: r => if b then x :: select m r else select m r
  | _, _ => []
  end.

(** [frame[mask]] *)
Definition boolean_index (frame : DataFrame) (mask : list bool) : DataFrame :=
  map (fun c => (fst c, select mask (snd c))) frame.

(** [np.tile(l, k)]: [k] copies of [l] end to end. *)
Definition tile {A : Type} (l : list A) (k : nat) : list A :=
  List.concat (repeat l k).

(** What [pd.PeriodIndex(frame[name], ...)] reads. [frame[name]] is the
    column of that name; when several columns bear the name it is the frame
    of these columns, and a frame read as a sequence gives its column
    labels. *)
Definition iter_getitem (frame : DataFrame) (name : string) : py Series :=
  match filter (fun c => String.eqb (fst c) name) frame with
  | [] => Raise KeyError
  | [c] => Ok (snd c)
  | cs => Ok (map (fun c => VStr (fst c)) cs)
  end.

Definition mem (c : string) (l : list string) : bool := existsb (String.eqb c) l.

Definition without (c : string) (l : list string) : list string :=
  filter (fun x => negb (String.eqb c x)) l.

(** [algos.unique]: the first occurrence of every name, in order. *)
Fixpoint unique (l : list string) : list string :=
  match l with
  | [] => []
  | c :: r => c :: without c (unique r)
  end.

(** The loop of [melt] over [id_vars]. [frame.pop(col)] takes the column out
    of the frame, a [KeyError] when it is there no longer; [np.tile] then
    refuses a negative count on data that is not empty with [ValueError].
    The result is the names of the columns left in the frame. *)
Fixpoint pop_id_vars (remaining id_vars : list string) (negative_count : bool)
    : py (list string) :=
  match id_vars with
  | [] => Ok remaining
  | col :: more =>
      if mem col remaining then
        if negative_count then Raise ValueError
        else pop_id_vars (without col remaining) more negative_count
      else Raise KeyError
  end.

(** The frame that [melt] builds, with [rest] the value columns and [K] their
    number: the columns [id_vars], [var_name], [value_name], each with the
    data last stored under its name, the labels and the values being stored
    after the identifiers. *)
Definition melted (frame : DataFrame) (id_vars rest : list string) (K : nat)
    (var_name value_name : string) : DataFrame :=
  let labels := flat_map (fun c => repeat (VStr c) (nrows frame)) rest in
  let values := flat_map (fun c => values_of frame c) rest in
  let mdata := fun col =>
    if String.eqb col var_name then labels
    else if String.eqb col value_name then values
    else tile (values_of frame col) K in
  map (fun col => (col, mdata col)) (id_vars ++ [var_name; value_name]).

(** [frame.melt(id_vars, value_vars, var_name, value_name)] with two lists of
    names, in the order of the statements of pandas:
    - [ValueError] when [value_name] is a column of the frame;
    - [KeyError] when a name of [id_vars] or [value_vars] is not;
    - the frame is cut down to the columns named, each once, in the order of
      their first mention (for two empty lists some releases keep the whole
      frame instead; the statements below that a call succeeds keep to calls
      that name an identifier);
    - with [N] rows and [K] columns beyond the number of identifiers, every
      identifier is popped and tiled [K] times;
    - the columns left are the value columns: their names, each repeated [N]
      times, and their cells laid end to end, every cell as it is (pandas
      holds them in the common dtype of the columns);
    - the result is [melted]. *)
Definition melt (frame : DataFrame) (id_vars value_vars : list string)
    (var_name value_name : string) : py DataFrame :=
  if has_column frame value_name then Raise ValueError
  else if negb (forallb (has_column frame) (id_vars ++ value_vars))
  then Raise KeyError
  else
    let kept := unique (id_vars ++ value_vars) in
    let N := nrows frame in
    let K := (Z.of_nat (length kept) - Z.of_nat (length id_vars))%Z in
    rest <- pop_id_vars kept id_vars ((K <? 0)%Z && (0 <? N)) ;;
    Ok (melted frame id_vars rest (Z.to_nat K) var_name value_name).

End Frames.

(* ================================================================== *)
(** * The reshape: [time_cols] (line 35) and [to_long] (lines 37-43) *)

Section Script.

(** [df], the frame read from the CSV file at line 8. *)
Variable df : DataFrame.

(** The reader of numerals behind [pd.to_numeric]: the double that a text
    denotes, when it denotes one. *)
Variable read_float : string -> option float.

(** [range(a, b)] *)
Definition py_range (a b : nat) : list nat := seq a (b - a).

Definition year_prefixes : list string := map py_str (py_range 2010 2025).

Definition time_cols : list string :=
  filter (fun c => startswith c year_prefixes) (columns df).

(** One label of [pd.PeriodIndex(long["Quarter"], freq="Q").to_timestamp(how="end")]. *)
Definition period_index_end (v : value) : py Timestamp :=
  match v with
  | VStr s => quarter_end_of_label s
  | _ => Raise DateParseError
  end.

(** The double nearest to an integer (ties to even). *)
Definition float_of_Z (z : Z) : float :=
  SF2Prim (binary_normalize prec emax z 0 false).

(** The integer that a text of digits, with a sign or without, writes. *)
Definition int_literal (s : string) : option Z :=
  let fix digits (l : list ascii) (acc : Z) : option Z :=
    match l with
    | [] => Some acc
    | c :: r => match digit_of c with
                | Some d => digits r (10 * acc + d)%Z
                | None => None
                end
    end in
  match list_ascii_of_string s with
  | [] => None
  | "-"%char :: d :: r => option_map Z.opp (digits (d :: r) 0%Z)
  | "+"%char :: d :: r => digits (d :: r) 0%Z
  | l => digits l 0%Z
  end.

Definition is_timelike (v : value) : bool :=
  match v with
  | VTime _ | VNaT => true
  | _ => false
  end.

(** [values.view(np.int64)] on a cell of a datetime64 column: the
    nanoseconds of a timestamp, the least 64-bit integer for NaT. *)
Definition view_int64 (v : value) : value :=
  match v with
  | VTime t => VInt t
  | VNaT => VInt (- 2 ^ 63)
  | _ => v
  end.

(** The integer that a cell holds or writes, if any. *)
Definition as_integer (v : value) : option Z :=
  match v with
  | VInt z => Some z
  | VStr s =>
      match read_float s, int_literal s with
      | Some _, Some z => Some z
      | _, _ => None
      end
  | _ => None
  end.

Fixpoint all_integers (raw : Series) : option (list Z) :=
  match raw with
  | [] => Some []
  | v :: r => match as_integer v, all_integers r with
              | Some z, Some zs => Some (z :: zs)
              | _, _ => None
              end
  end.

(** The ranges of int64 and of uint64. *)
Definition fits_int64 (z : Z) : bool := ((- 2 ^ 63 <=? z) && (z <? 2 ^ 63))%Z.
Definition fits_uint64 (z : Z) : bool := ((0 <=? z) && (z <? 2 ^ 64))%Z.

(** One cell of [pd.to_numeric(..., errors="coerce")] when the result is a
    column of doubles: a double stays, an integer is converted, a text is
    read as a numeral, and whatever is not a number becomes NaN. *)
Definition to_numeric_coerce (v : value) : float :=
  match v with
  | VFloat f => f
  | VInt z => float_of_Z z
  | VStr s => match read_float s with
              | Some f => f
              | None => nan
              end
  | VTime _ | VNaT => nan
  end.

(** [pd.to_numeric(raw, errors="coerce")] on a column: a datetime64 column is
    viewed as 64-bit integers; a column of integers, held or written, that
    fit int64, or that all fit uint64, is a column of integers; every other
    column becomes a column of doubles. *)
Definition to_numeric (raw : Series) : Series :=
  let doubles := map (fun v => VFloat (to_numeric_coerce v)) raw in
  if forallb is_timelike raw then map view_int64 raw
  else match all_integers raw with
       | Some zs =>
           if forallb fits_int64 zs || forallb fits_uint64 zs
           then map VInt zs else doubles
       | None => doubles
       end.

(** One cell of [long["Quarter"].dt.year]. *)
Definition dt_year_of (v : value) : py Z :=
  match v with
  | VTime t => Ok (dt_year t)
  | _ => Raise AttributeError
  end.

Definition year_in_range (y : Z) : bool := ((2010 <=? y) && (y <=? 2024))%Z.

(** Lines 39-42 of [to_long]: the value of [long] when line 43 is reached. *)
Definition to_long_before_filter (_df : DataFrame) (id_vars : list string)
    : py DataFrame :=
  long <- melt _df id_vars time_cols "Quarter" "Emissions" ;;
  labels <- iter_getitem long "Quarter" ;;
  stamps <- mapM period_index_end labels ;;
  let long := setitem long "Quarter" (map VTime stamps) in
  raw <- getitem long "Emissions" ;;
  Ok (setitem long "Emissions" (to_numeric raw)).

(** [to_long]: lines 39-42, then the year mask of line 43. *)
Definition to_long (_df : DataFrame) (id_vars : list string) : py DataFrame :=
  long <- to_long_before_filter _df id_vars ;;
  quarter <- getitem long "Quarter" ;;
  years <- mapM dt_year_of quarter ;;
  Ok (boolean_index long (map year_in_range years)).

End Script.

(** A reader of plain unsigned decimal integers of at most fifteen digits,
    which a double holds exactly: one instance of [read_float], used to run
    the reshape on examples. *)
Definition read_digits (s : string) : option float :=
  let fix go (l : list ascii) (acc : Z) : option Z :=
    match l with
    | [] => Some acc
    | c :: r => match digit_of c with
                | Some d => go r (10 * acc + d)%Z
                | None => None
                end
    end in
  match list_ascii_of_string s with
  | [] => None
  | l => if (15 <? List.length l)%nat then None
         else match go l 0%Z with
              | Some n => Some (PrimFloat.of_uint63 (Uint63.of_Z n))
              | None => None
              end
  end.

Section Examples.
Open Scope string_scope.

(** A small wide table: two identifier columns, four quarter-like columns and
    three rows. *)
Definition sample : DataFrame :=
  [ ("Country", [VStr "AT"; VStr "BE"; VStr "CY"]);
    ("Industry", [VStr "Mining"; VStr "Mining"; VStr "Construction"]);
    ("2009Q4", [VFloat 1; VFloat 2; VFloat 3]);
    ("2015Q3", [VFloat 10.5; VStr "N/A"; VStr "12"]);
    ("2024Q4", [VFloat 7; VFloat nan; VFloat 9]);
    ("2025Q1", [VFloat 4; VFloat 5; VFloat 6]) ].

(** Collections of values used as examples of [ytrim_from]. *)
Definition between_100_and_200 : grid := [[100; 150]; [nan; 200]]%float.
Definition between_m50_and_50 : grid := [[-50; 0]; [50]]%float.
Definition all_fives : grid := [[5; 5]; [nan]; [5]]%float.
Definition only_missing : grid := [[nan; nan]; []]%float.
Definition all_negative : grid := [[-100; -75]; [-50]]%float.

End Examples.

(* ================================================================== *)
(** * The script around the two functions (lines 48-49, 66-81, 116-120) *)

Section Pipelines.
Open Scope string_scope.

Variable df : DataFrame.
Variable read_float : string -> option float.

(** The label of the rows that hold the totals. *)
Definition TOTAL : string := "Total Industry and Households".

(** One cell of [series == text]: a missing or non-text cell is not equal. *)
Definition eq_text (v : value) (s : string) : bool :=
  match v with
  | VStr t => String.eqb t s
  | _ => false
  end.

(** [totals = df[df["Industry"] == "Total Industry and Households"].copy()]
    (line 48, and [total_data] at line 116). *)
Definition totals : py DataFrame :=
  industry <- getitem df "Industry" ;;
  Ok (boolean_index df (map (fun v => eq_text v TOTAL) industry)).

(** The dictionary of short display names (lines 66-76). *)
Definition SHORT : list (string * string) :=
  [ ("Electricity, Gas, Steam and Air Conditioning Supply", "Energy");
    ("Transportation and Storage", "Transport");
    ("Water supply; sewerage, waste management and remediation activities",
     "Waste/Water");
    ("Agriculture, Forestry and Fishing", "Agriculture");
    ("Other Services Industries", "Other Services");
    ("Manufacturing", "Manufacturing");
    ("Mining", "Mining");
    ("Construction", "Construction");
    ("Total Households", "Households") ].

Fixpoint dict_get (d : list (string * string)) (k : string) : option string :=
  match d with
  | [] => None
  | (k', v) :: r => if String.eqb k' k then Some v else dict_get r k
  end.

(** One cell of [series.map(SHORT).fillna(series)]: the short name of a mapped
    industry, the cell itself otherwise. *)
Definition short_name (v : value) : value :=
  match v with
  | VStr s => match dict_get SHORT s with
              | Some t => VStr t
              | None => v
              end
  | _ => v
  end.

(** Lines 78-79: the rows that are not totals, with the column
    [Industry_short] set. *)
Definition sectors : py DataFrame :=
  industry <- getitem df "Industry" ;;
  let sectors := boolean_index df (map (fun v => negb (eq_text v TOTAL)) industry) in
  industry <- getitem sectors "Industry" ;;
  Ok (setitem sectors "Industry_short" (map short_name industry)).

(** Line 49 *)
Definition long_total : py DataFrame :=
  totals <- totals ;;
  to_long df read_float totals ["Country"; "Industry"].

(** Line 81 *)
Definition sector_long : py DataFrame :=
  sectors <- sectors ;;
  to_long df read_float sectors ["Industry"; "Industry_short"].

(** A small table with total and sector rows. *)
Definition emissions : DataFrame :=
  [ ("Country", [VStr "AT"; VStr "AT"; VStr "AT"; VStr "BE"]);
    ("Industry", [VStr "Total Industry and Households";
                  VStr "Electricity, Gas, Steam and Air Conditioning Supply";
                  VStr "Mining";
                  VStr "Total Industry and Households"]);
    ("2010Q1", [VFloat 10; VFloat 4; VFloat 1; VFloat 20]);
    ("2010Q2", [VFloat 11; VFloat 5; VStr "N/A"; VFloat 21]) ].

End Pipelines.

(* ================================================================== *)
(** * Facts about binary64 arithmetic *)

Section FloatFacts.
Open Scope float_scope.

(** NaN is absorbing. *)
Lemma mul_nan_l (x : float) : nan * x = nan.
Proof. apply Prim2SF_inj. rewrite mul_spec. reflexivity. Qed.

Lemma sub_nan_l (x : float) : nan - x = nan.
Proof. apply Prim2SF_inj. rewrite sub_spec. reflexivity. Qed.

Lemma sub_nan_r (x : float) : x - nan = nan.
Proof.
  apply Prim2SF_inj. rewrite sub_spec.
  change (Prim2SF nan) with S754_nan.
  destruct (Prim2SF x); reflexivity.
Qed.

Lemma add_nan_l (x : float) : nan + x = nan.
Proof. apply Prim2SF_inj. rewrite add_spec. reflexivity. Qed.

Lemma ltb_zero_r (x : float) : (x <? 0) = sf_neg (Prim2SF x).
Proof. rewrite ltb_spec. reflexivity. Qed.

Lemma ltb_zero_l (x : float) : (0 <? x) = sf_pos (Prim2SF x).
Proof. rewrite ltb_spec. reflexivity. Qed.

(** Rounding keeps the sign it is given. *)
Lemma binary_round_aux_sign (sx : bool) (m e : Z) (l : location) :
  match binary_round_aux prec emax sx m e l with
  | S754_zero s | S754_infinity s | S754_finite s _ _ => s = sx
  | S754_nan => True
  end.
Proof.
  unfold binary_round_aux.
  destruct (shr_fexp prec emax m e l) as [r1 e1].
  destruct (shr_fexp prec emax _ e1 loc_Exact) as [r2 e2].
  destruct (shr_m r2); auto.
  destruct (Z.leb e2 (Z.sub emax prec)); auto.
Qed.

Lemma binary_round_sign (sx : bool) (m : positive) (e : Z) :
  match binary_round prec emax sx m e with
  | S754_zero s | S754_infinity s | S754_finite s _ _ => s = sx
  | S754_nan => True
  end.
Proof.
  unfold binary_round.
  destruct (shl_align m e _) as [mz ez].
  apply binary_round_aux_sign.
Qed.

(** A product of two doubles that are not negative is not negative. *)
Lemma SFmul_not_neg (a b : spec_float) :
  sf_neg a = false -> sf_neg b = false -> sf_neg (SF64mul a b) = false.
Proof.
  destruct a as [sa|sa| |sa ma ea], b as [sb|sb| |sb mb eb];
    try destruct sa; try destruct sb; try reflexivity; try discriminate.
  intros _ _. unfold SF64mul, SFmul.
  pose proof (binary_round_aux_sign (xorb false false)
                (Zpos (Pos.mul ma mb)) (Z.add ea eb) loc_Exact) as H.
  destruct (binary_round_aux _ _ _ _ _ _); try reflexivity; rewrite H; reflexivity.
Qed.

(** Taking a double that is not negative from a negative one leaves no
    positive double. *)
Lemma SFsub_neg_not_pos (a b : spec_float) :
  sf_neg a = true -> sf_neg b = false -> sf_pos (SF64sub a b) = false.
Proof.
  destruct a as [sa|sa| |sa ma ea], b as [sb|sb| |sb mb eb];
    try destruct sa; try destruct sb; try reflexivity; try discriminate.
  intros _ _. unfold SF64sub, SFsub. cbv zeta.
  destruct (shl_align ma ea _) as [x1 x2], (shl_align mb eb _) as [y1 y2].
  cbn [fst cond_Zopp Z.opp Z.sub Z.add binary_normalize].
  pose proof (binary_round_sign true (x1 + y1) (Z.min ea eb)) as H.
  destruct (binary_round _ _ _ _ _); try reflexivity; rewrite H; reflexivity.
Qed.

(** A double below zero is below every double above zero. *)
Lemma ltb_through_zero (x y : float) :
  (x <? 0) = true -> (0 <? y) = true -> (x <? y) = true.
Proof.
  rewrite !ltb_spec. change (Prim2SF 0) with (S754_zero false).
  destruct (Prim2SF x) as [sa|sa| |sa ma ea], (Prim2SF y) as [sb|sb| |sb mb eb];
    try destruct sa; try destruct sb; try reflexivity; try discriminate.
Qed.

Lemma ltb_leb_zero (y : float) : (0 <? y) = true -> (0 <=? y) = true.
Proof.
  rewrite ltb_spec, leb_spec. change (Prim2SF 0) with (S754_zero false).
  destruct (Prim2SF y) as [sb|sb| |sb mb eb];
    try destruct sb; try reflexivity; try discriminate.
Qed.

Lemma leb_zero_not_neg (y : float) : (0 <=? y) = true -> (y <? 0) = false.
Proof.
  rewrite ltb_spec, leb_spec. change (Prim2SF 0) with (S754_zero false).
  destruct (Prim2SF y) as [sb|sb| |sb mb eb];
    try destruct sb; try reflexivity; try discriminate.
Qed.

(** [max(0.0, y)] is never below zero and never NaN. *)
Lemma py_max_zero_nonneg (y : float) : (0 <=? py_max 0 y) = true.
Proof.
  unfold py_max. destruct (0 <? y) eqn:E.
  - apply ltb_leb_zero, E.
  - reflexivity.
Qed.

(** [max(a, 1e-9)] is never negative. *)
Lemma py_max_epsilon_not_neg (a : float) : (py_max a epsilon <? 0) = false.
Proof.
  unfold py_max. destruct (a <? epsilon) eqn:E.
  - reflexivity.
  - revert E. rewrite !ltb_spec.
    change (Prim2SF 0) with (S754_zero false).
    set (e := Prim2SF epsilon). vm_compute in e. subst e.
    destruct (Prim2SF a) as [sa|sa| |sa ma ea];
      try destruct sa; try reflexivity; try discriminate.
Qed.

Lemma mul_not_neg (a b : float) :
  (a <? 0) = false -> (b <? 0) = false -> (a * b <? 0) = false.
Proof.
  rewrite !ltb_zero_r, mul_spec. apply SFmul_not_neg.
Qed.

Lemma sub_neg_not_pos (a b : float) :
  (a <? 0) = true -> (b <? 0) = false -> (0 <? a - b) = false.
Proof.
  rewrite !ltb_zero_r, ltb_zero_l, sub_spec. apply SFsub_neg_not_pos.
Qed.

(** The order of doubles that are not NaN is total: reflexive, transitive
    and connected. *)
Ltac cmp_cases :=
  repeat match goal with
  | |- context [Z.compare ?a ?b] => destruct (Z.compare_spec a b)
  | |- context [Pos.compare_cont Eq ?a ?b] =>
      change (Pos.compare_cont Eq a b) with (Pos.compare a b);
      destruct (Pos.compare_spec a b)
  end.

Lemma SFleb_trans (x y z : spec_float) :
  SFleb x y = true -> SFleb y z = true -> SFleb x z = true.
Proof.
  unfold SFleb.
  destruct x as [sx|sx| |sx mx ex], y as [sy|sy| |sy my ey], z as [sz|sz| |sz mz ez];
    try destruct sx; try destruct sy; try destruct sz; simpl;
    try discriminate; try reflexivity;
    cmp_cases; simpl; intros; subst; try discriminate; try reflexivity; try lia.
Qed.

Lemma SFleb_refl (x : spec_float) : x <> S754_nan -> SFleb x x = true.
Proof.
  unfold SFleb. destruct x as [sx|sx| |sx mx ex]; try destruct sx; simpl;
    try congruence; intros _; cmp_cases; simpl; try reflexivity; try lia.
Qed.

Lemma SFltb_false_leb (x y : spec_float) :
  x <> S754_nan -> y <> S754_nan -> SFltb x y = false -> SFleb y x = true.
Proof.
  unfold SFleb, SFltb.
  destruct x as [sx|sx| |sx mx ex], y as [sy|sy| |sy my ey];
    try destruct sx; try destruct sy; simpl; try congruence;
    intros _ _; cmp_cases; simpl; intros; subst;
    try discriminate; try reflexivity; try lia.
Qed.

Lemma SFleb_false_leb (x y : spec_float) :
  x <> S754_nan -> y <> S754_nan -> SFleb x y = false -> SFleb y x = true.
Proof.
  unfold SFleb.
  destruct x as [sx|sx| |sx mx ex], y as [sy|sy| |sy my ey];
    try destruct sx; try destruct sy; simpl; try congruence;
    intros _ _; cmp_cases; simpl; intros; subst;
    try discriminate; try reflexivity; try lia.
Qed.

Lemma not_nan_spec (x : float) : is_nan x = false -> Prim2SF x <> S754_nan.
Proof.
  unfold is_nan. rewrite eqb_spec. intros H E. rewrite E in H. discriminate H.
Qed.

Lemma leb_trans (a b c : float) :
  (a <=? b) = true -> (b <=? c) = true -> (a <=? c) = true.
Proof. rewrite !leb_spec. apply SFleb_trans. Qed.

Lemma leb_refl (a : float) : is_nan a = false -> (a <=? a) = true.
Proof. intros H. rewrite leb_spec. apply SFleb_refl, not_nan_spec, H. Qed.

Lemma ltb_leb (a b : float) : (a <? b) = true -> (a <=? b) = true.
Proof.
  rewrite ltb_spec, leb_spec. unfold SFltb, SFleb.
  destruct (SFcompare _ _) as [[]|]; auto.
Qed.

Lemma ltb_false_leb (a b : float) :
  is_nan a = false -> is_nan b = false -> (a <? b) = false -> (b <=? a) = true.
Proof.
  intros Ha Hb. rewrite ltb_spec, leb_spec.
  apply SFltb_false_leb; apply not_nan_spec; assumption.
Qed.

Lemma leb_false_leb (a b : float) :
  is_nan a = false -> is_nan b = false -> (a <=? b) = false -> (b <=? a) = true.
Proof.
  intros Ha Hb. rewrite !leb_spec.
  apply SFleb_false_leb; apply not_nan_spec; assumption.
Qed.

End FloatFacts.

(* ================================================================== *)
(** * Properties of [ytrim_from] *)

Section YtrimFacts.
Open Scope float_scope.

Lemma np_minimum_cases (a b : float) : np_minimum a b = a \/ np_minimum a b = b.
Proof. unfold np_minimum. destruct (_ || _); auto. Qed.

Lemma np_maximum_cases (a b : float) : np_maximum a b = a \/ np_maximum a b = b.
Proof. unfold np_maximum. destruct (_ || _); auto. Qed.

Lemma fold_left_choice (f : float -> float -> float) :
  (forall a b, f a b = a \/ f a b = b) ->
  forall (r : list float) (x : float), In (fold_left f r x) (x :: r).
Proof.
  intros Hf r. induction r as [|y r IH]; intros x; simpl.
  - auto.
  - destruct (IH (f x y)) as [H|H].
    + rewrite <- H.
      destruct (Hf x y) as [E|E]; rewrite E; [left | right; left]; reflexivity.
    + right; right; exact H.
Qed.

(** The minimum and the maximum of a series that is not empty are among its
    values. *)
Lemma series_min_In (vals : list float) : vals <> [] -> In (series_min vals) vals.
Proof.
  destruct vals as [|x r]; [congruence|]. intros _.
  apply (fold_left_choice np_minimum np_minimum_cases).
Qed.

Lemma series_max_In (vals : list float) : vals <> [] -> In (series_max vals) vals.
Proof.
  destruct vals as [|x r]; [congruence|]. intros _.
  apply (fold_left_choice np_maximum np_maximum_cases).
Qed.

(** Folding [np_minimum] over numbers gives a number that none of them is
    below; folding [np_maximum], one that none of them is above. *)
Lemma fold_minimum_bound (r : list float) :
  forall x : float,
    is_nan x = false -> Forall (fun v => is_nan v = false) r ->
    let m := fold_left np_minimum r x in
    is_nan m = false /\ (m <=? x) = true /\ Forall (fun v => (m <=? v) = true) r.
Proof.
  induction r as [|y r IH]; intros x Hx Hr; simpl.
  - split; [exact Hx|]. split; [apply leb_refl, Hx | constructor].
  - inversion Hr as [|y' r' Hy Hr']; subst.
    assert (Hstep : is_nan (np_minimum x y) = false /\
                    (np_minimum x y <=? x) = true /\ (np_minimum x y <=? y) = true).
    { unfold np_minimum. rewrite Hx, orb_false_r. destruct (x <? y) eqn:E.
      - split; [exact Hx|]. split; [apply leb_refl, Hx | apply ltb_leb, E].
      - split; [exact Hy|]. split; [apply ltb_false_leb; assumption | apply leb_refl, Hy]. }
    destruct Hstep as (Hn & H1 & H2).
    destruct (IH (np_minimum x y) Hn Hr') as (Hm & Hle & Hall).
    split; [exact Hm|].
    split; [eapply leb_trans; eassumption|].
    constructor; [eapply leb_trans; eassumption | exact Hall].
Qed.

Lemma fold_maximum_bound (r : list float) :
  forall x : float,
    is_nan x = false -> Forall (fun v => is_nan v = false) r ->
    let m := fold_left np_maximum r x in
    is_nan m = false /\ (x <=? m) = true /\ Forall (fun v => (v <=? m) = true) r.
Proof.
  induction r as [|y r IH]; intros x Hx Hr; simpl.
  - split; [exact Hx|]. split; [apply leb_refl, Hx | constructor].
  - inversion Hr as [|y' r' Hy Hr']; subst.
    assert (Hstep : is_nan (np_maximum x y) = false /\
                    (x <=? np_maximum x y) = true /\ (y <=? np_maximum x y) = true).
    { unfold np_maximum. rewrite Hx, orb_false_r. destruct (y <=? x) eqn:E.
      - split; [exact Hx|]. split; [apply leb_refl, Hx | exact E].
      - split; [exact Hy|]. split; [apply leb_false_leb; assumption | apply leb_refl, Hy]. }
    destruct Hstep as (Hn & H1 & H2).
    destruct (IH (np_maximum x y) Hn Hr') as (Hm & Hle & Hall).
    split; [exact Hm|].
    split; [eapply leb_trans; eassumption|].
    constructor; [eapply leb_trans; eassumption | exact Hall].
Qed.

Lemma series_min_lower_bound (vals : list float) :
  Forall (fun v => is_nan v = false) vals ->
  Forall (fun v => (series_min vals <=? v) = true) vals.
Proof.
  destruct vals as [|x r]; [constructor|]. intros H.
  inversion H as [|x' r' Hx Hr]; subst.
  destruct (fold_minimum_bound r x Hx Hr) as (_ & H1 & H2).
  constructor; assumption.
Qed.

Lemma series_max_upper_bound (vals : list float) :
  Forall (fun v => is_nan v = false) vals ->
  Forall (fun v => (v <=? series_max vals) = true) vals.
Proof.
  destruct vals as [|x r]; [constructor|]. intros H.
  inversion H as [|x' r' Hx Hr]; subst.
  destruct (fold_maximum_bound r x Hx Hr) as (_ & H1 & H2).
  constructor; assumption.
Qed.

(** No value of the stacked series is NaN. *)
Lemma stack_not_nan (d : grid) (x : float) : In x (stack d) -> is_nan x = false.
Proof.
  unfold stack. rewrite filter_In. intros [_ H].
  apply negb_true_iff, H.
Qed.

(** A series whose values are all [c] has minimum and maximum [c]. *)
Lemma series_constant (c : float) (vals : list float) :
  vals <> [] -> Forall (fun v => v = c) vals ->
  series_min vals = c /\ series_max vals = c.
Proof.
  intros Hne Hall. rewrite Forall_forall in Hall.
  split; apply Hall; [apply series_min_In | apply series_max_In]; exact Hne.
Qed.

(** On an empty series every bound but the floored one is NaN. *)
Lemma ytrim_from_of_empty (d : grid) (pad strength : float) (exaggerate floor0 : bool) :
  stack d = [] ->
  ytrim_from d pad exaggerate floor0 strength = Ok (if floor0 then 0 else nan, nan).
Proof.
  intros H. unfold ytrim_from. rewrite H. cbn [series_min series_max].
  change (py_max (nan - nan) epsilon) with nan.
  rewrite !mul_nan_l, add_nan_l, sub_nan_l.
  destruct exaggerate, floor0; reflexivity.
Qed.

(** C1, as amended. With [exaggerate=true], [strength=0.1] and [pad=0.05], on
    values whose minimum is 100 and whose maximum is 200, the lower bound is
    110 (dmax - span * 0.9 = 200 - 90) and the upper bound is 205, with or
    without the floor at zero. *)
Theorem ytrim_from_exaggerate_100_200 (d : grid) (floor0 : bool) :
  series_min (stack d) = 100 ->
  series_max (stack d) = 200 ->
  ytrim_from d 0.05 true floor0 0.1 = Ok (110, 205).
Proof.
  intros Hmin Hmax. unfold ytrim_from. rewrite Hmin, Hmax.
  destruct floor0; vm_compute; reflexivity.
Qed.

Lemma ytrim_from_exaggerate_100_200_witness :
  series_min (stack between_100_and_200) = 100 /\
  series_max (stack between_100_and_200) = 200 /\
  ytrim_from between_100_and_200 0.05 true true 0.1 = Ok (110, 205).
Proof.
  split; [reflexivity|]. split; [reflexivity|].
  apply (ytrim_from_exaggerate_100_200 between_100_and_200 true); reflexivity.
Defined.

(** C1, as stated, fails: a lower bound within 1 of 190 is not what the code
    computes on values spanning [100, 200]. *)
Lemma ytrim_from_100_200_not_190 :
  ~ (forall d : grid,
       series_min (stack d) = 100 -> series_max (stack d) = 200 ->
       exists ymin ymax,
         ytrim_from d 0.05 true true 0.1 = Ok (ymin, ymax) /\
         approx 1 ymin 190 = true /\ approx 1 ymax 205 = true).
Proof.
  intros H.
  destruct (H between_100_and_200 eq_refl eq_refl) as (ymin & ymax & E & A & _).
  vm_compute in E. injection E as <- <-. vm_compute in A. discriminate A.
Qed.

(** C2. On every collection with at least one value, with dmin and dmax its
    minimum and maximum (two of its values, no value below the one or above
    the other) and span = max(dmax - dmin, 1e-9),
    the lower bound is dmax - span * (1 - strength) when exaggerating and
    dmin - span * pad when not, and the upper bound is dmax + span * pad in
    both modes; with the floor at zero the lower bound is the maximum of 0 and
    that same formula. *)
Theorem ytrim_from_formulas (d : grid) (pad strength : float) :
  stack d <> [] ->
  let dmin := series_min (stack d) in
  let dmax := series_max (stack d) in
  let span := py_max (dmax - dmin) 1e-9 in
  In dmin (stack d) /\ In dmax (stack d) /\
  Forall (fun v => (dmin <=? v) = true /\ (v <=? dmax) = true) (stack d) /\
  ytrim_from d pad true false strength
    = Ok (dmax - span * (1 - strength), dmax + span * pad) /\
  ytrim_from d pad false false strength
    = Ok (dmin - span * pad, dmax + span * pad) /\
  ytrim_from d pad true true strength
    = Ok (py_max 0 (dmax - span * (1 - strength)), dmax + span * pad) /\
  ytrim_from d pad false true strength
    = Ok (py_max 0 (dmin - span * pad), dmax + span * pad).
Proof.
  intros Hne dmin dmax span.
  split; [apply series_min_In, Hne|].
  split; [apply series_max_In, Hne|].
  split; [|repeat split; reflexivity].
  assert (Hnum : Forall (fun v => is_nan v = false) (stack d))
    by (apply Forall_forall; intros v Hv; apply (stack_not_nan d v Hv)).
  pose proof (series_min_lower_bound (stack d) Hnum) as Hlo.
  pose proof (series_max_upper_bound (stack d) Hnum) as Hhi.
  rewrite Forall_forall in *. intros v Hv. split; [apply Hlo | apply Hhi]; exact Hv.
Qed.

Lemma ytrim_from_formulas_witness :
  stack between_100_and_200 <> [] /\
  ytrim_from between_100_and_200 0.05 false false 0.3 = Ok (95, 205).
Proof.
  assert (Hne : stack between_100_and_200 <> []) by (vm_compute; discriminate).
  split; [exact Hne|].
  destruct (ytrim_from_formulas between_100_and_200 0.05 0.3 Hne)
    as (_ & _ & _ & _ & E & _).
  rewrite E. vm_compute. reflexivity.
Defined.

(** C3. On a collection without any non-missing entry the call raises. The
    minimum, the maximum and the span are NaN; the range computed is
    (0.0, NaN) with the floor at zero and (NaN, NaN) without it; [set_ylim]
    refuses the NaN limit with [ValueError], and no range holding a NaN
    reaches the axes. The check is that of [set_ylim]: lines 16-28 hold
    none. *)
Theorem ytrim_from_empty_raises (d : grid) (pad strength : float)
    (exaggerate floor0 : bool) :
  stack d = [] ->
  let dmin := series_min (stack d) in
  let dmax := series_max (stack d) in
  let span := py_max (dmax - dmin) 1e-9 in
  is_nan dmin = true /\ is_nan dmax = true /\ is_nan span = true /\
  ytrim_from d pad exaggerate floor0 strength = Ok (if floor0 then 0 else nan, nan) /\
  ytrim_from_on_axes d pad exaggerate floor0 strength = Raise ValueError /\
  raises (ytrim_from_on_axes d pad exaggerate floor0 strength).
Proof.
  intros H dmin dmax span.
  pose proof (ytrim_from_of_empty d pad strength exaggerate floor0 H) as E.
  assert (R : ytrim_from_on_axes d pad exaggerate floor0 strength = Raise ValueError).
  { unfold ytrim_from_on_axes. rewrite E. cbn [bind fst snd].
    destruct floor0; reflexivity. }
  subst dmin dmax span. rewrite H. cbn [series_min series_max].
  split; [reflexivity|]. split; [reflexivity|]. split; [reflexivity|].
  split; [exact E|]. split; [exact R|]. exists ValueError. exact R.
Qed.

Lemma ytrim_from_empty_raises_witness :
  stack only_missing = [] /\
  ytrim_from_on_axes only_missing default_pad false true default_strength
  = Raise ValueError /\
  ytrim_from_on_axes [] default_pad true false default_strength = Raise ValueError /\
  ytrim_from_on_axes between_100_and_200 default_pad false true default_strength
  = Ok (95, 205).
Proof.
  split; [reflexivity|].
  split; [|split].
  - apply (ytrim_from_empty_raises only_missing default_pad default_strength false true).
    reflexivity.
  - apply (ytrim_from_empty_raises [] default_pad default_strength true false).
    reflexivity.
  - vm_compute. reflexivity.
Defined.

(** C4. With [floor0=true] the lower bound that reaches [set_ylim] is
    max(0, ymin) of the mode's formula, hence never below zero; on values
    spanning [-50, 50] without exaggeration (default pad) the formula gives a
    negative number, -55, and the final lower bound is exactly 0. *)
Theorem ytrim_from_floor0_clamp (d : grid) (pad strength : float)
    (exaggerate : bool) :
  let dmin := series_min (stack d) in
  let dmax := series_max (stack d) in
  let span := py_max (dmax - dmin) 1e-9 in
  let ymin := if exaggerate then dmax - span * (1 - strength)
              else dmin - span * pad in
  ytrim_from d pad exaggerate true strength
    = Ok (py_max 0 ymin, dmax + span * pad) /\
  (0 <=? py_max 0 ymin) = true /\
  (dmin = -50 -> dmax = 50 ->
   dmin - span * 0.05 = -55 /\
   (dmin - span * 0.05 <? 0) = true /\
   ytrim_from d 0.05 false true strength = Ok (0, 55)).
Proof.
  intros dmin dmax span ymin.
  split; [reflexivity|].
  split; [apply py_max_zero_nonneg|].
  intros Hmin Hmax. unfold ytrim_from.
  fold dmin dmax. fold span. subst span. rewrite Hmin, Hmax.
  repeat split; vm_compute; reflexivity.
Qed.

Lemma ytrim_from_floor0_clamp_witness :
  series_min (stack between_m50_and_50) = -50 /\
  series_max (stack between_m50_and_50) = 50 /\
  ytrim_from between_m50_and_50 0.05 false true 0.3 = Ok (0, 55).
Proof.
  split; [reflexivity|]. split; [reflexivity|].
  apply (ytrim_from_floor0_clamp between_m50_and_50 0.05 0.3 false); reflexivity.
Defined.

(** C5. On every collection with at least one value whose values all equal
    5.0, with [floor0=true], [exaggerate=false] and the default pad, the span
    is max(0, 1e-9) = 1e-9 and the range is
    [5.0 - 1e-9 * 0.05, 5.0 + 1e-9 * 0.05]: both bounds within 1e-10 of 5.0,
    the lower one not negative and not above the upper one. *)
Theorem ytrim_from_constant_five (d : grid) (strength : float) :
  stack d <> [] ->
  Forall (fun v => v = 5) (stack d) ->
  py_max (series_max (stack d) - series_min (stack d)) 1e-9 = 1e-9 /\
  exists ymin ymax,
    ytrim_from d default_pad false true strength = Ok (ymin, ymax) /\
    ymin = 5 - 1e-9 * 0.05 /\ ymax = 5 + 1e-9 * 0.05 /\
    approx 1e-10 ymin 5 = true /\ approx 1e-10 ymax 5 = true /\
    (0 <=? ymin) = true /\ (ymin <? 0) = false /\ (ymin <? ymax) = true.
Proof.
  intros Hne Hall.
  destruct (series_constant 5 (stack d) Hne Hall) as [Hmin Hmax].
  unfold ytrim_from. rewrite Hmin, Hmax.
  split; [vm_compute; reflexivity|].
  eexists; eexists. split; [reflexivity|].
  repeat split; vm_compute; reflexivity.
Qed.

Lemma ytrim_from_constant_five_witness :
  stack all_fives <> [] /\
  Forall (fun v => v = 5) (stack all_fives) /\
  exists ymin ymax,
    ytrim_from all_fives default_pad false true default_strength = Ok (ymin, ymax) /\
    (0 <=? ymin) = true.
Proof.
  assert (Hne : stack all_fives <> []) by (vm_compute; discriminate).
  assert (Hall : Forall (fun v => v = 5) (stack all_fives))
    by (vm_compute; repeat constructor).
  split; [exact Hne|]. split; [exact Hall|].
  destruct (ytrim_from_constant_five all_fives default_strength Hne Hall)
    as (_ & ymin & ymax & E & _ & _ & _ & _ & H & _).
  exists ymin, ymax. split; assumption.
Defined.

(** C10. With [floor0=true], whenever the padded maximum dmax + span * pad is
    below zero the range handed to [set_ylim] is inverted: the lower bound is
    not below zero and the upper bound is below it, nothing after the floor
    touching either. When, further, every value is negative, pad is not
    negative and strength is at most one, the lower bound is exactly 0. The
    values [-100, -75, -50] with the default pad are such an input: the range
    is (0, -47.5). *)
Theorem ytrim_from_inverted_range (d : grid) (pad strength : float)
    (exaggerate : bool) :
  let dmin := series_min (stack d) in
  let dmax := series_max (stack d) in
  let span := py_max (dmax - dmin) 1e-9 in
  let ymax := dmax + span * pad in
  (ymax <? 0) = true ->
  exists ymin,
    ytrim_from d pad exaggerate true strength = Ok (ymin, ymax) /\
    (0 <=? ymin) = true /\ (ymax <? ymin) = true /\
    (Forall (fun v => (v <? 0) = true) (stack d) ->
     (0 <=? pad) = true -> (0 <=? 1 - strength) = true ->
     ymin = 0).
Proof.
  intros dmin dmax span ymax Hneg.
  assert (Hne : stack d <> []).
  { intros E. revert Hneg. subst ymax span dmax dmin. rewrite E.
    cbn [series_min series_max]. rewrite add_nan_l. discriminate. }
  set (pre := if exaggerate then dmax - span * (1 - strength)
              else dmin - span * pad).
  exists (py_max 0 pre).
  split; [reflexivity|].
  split; [apply py_max_zero_nonneg|].
  split.
  - unfold py_max. destruct (0 <? pre) eqn:E.
    + apply ltb_through_zero; assumption.
    + exact Hneg.
  - intros Hall Hpad Hstr. rewrite Forall_forall in Hall.
    assert (Hspan : (span <? 0) = false) by apply py_max_epsilon_not_neg.
    assert (Hpre : (0 <? pre) = false).
    { subst pre. destruct exaggerate.
      - apply sub_neg_not_pos.
        + apply Hall, series_max_In, Hne.
        + apply mul_not_neg; [exact Hspan | apply leb_zero_not_neg, Hstr].
      - apply sub_neg_not_pos.
        + apply Hall, series_min_In, Hne.
        + apply mul_not_neg; [exact Hspan | apply leb_zero_not_neg, Hpad]. }
    unfold py_max. rewrite Hpre. reflexivity.
Qed.

Lemma ytrim_from_inverted_range_witness :
  exists ymin ymax,
    ytrim_from all_negative default_pad false true default_strength = Ok (ymin, ymax) /\
    ymin = 0 /\ ymax = -47.5 /\ (ymax <? ymin) = true.
Proof.
  destruct (ytrim_from_inverted_range all_negative default_pad default_strength false)
    as (ymin & E & _ & Hinv & Hzero); [reflexivity|].
  exists ymin, (-47.5). split; [exact E|].
  split; [apply Hzero; [vm_compute; repeat constructor | reflexivity | reflexivity]|].
  split; [reflexivity | exact Hinv].
Defined.

End YtrimFacts.

(* ================================================================== *)
(** * Lists, results and frames *)

Section ListFacts.
Context {A B : Type}.

Lemma mapM_map {C : Type} (g : C -> A) (f : A -> py B) (l : list C) :
  mapM f (map g l) = mapM (fun x => f (g x)) l.
Proof.
  induction l as [|x l IH]; simpl; [reflexivity|].
  rewrite IH. reflexivity.
Qed.

Lemma mapM_total (f : A -> B) (l : list A) :
  mapM (fun x => Ok (f x)) l = Ok (map f l).
Proof.
  induction l as [|x l IH]; simpl; [reflexivity|].
  rewrite IH. reflexivity.
Qed.

(** A successful [mapM] pairs every input with its result. *)
Lemma mapM_Forall2 (f : A -> py B) (l : list A) (r : list B) :
  mapM f l = Ok r -> Forall2 (fun x y => f x = Ok y) l r.
Proof.
  revert r. induction l as [|x l IH]; simpl; intros r H.
  - injection H as <-. constructor.
  - destruct (f x) as [y|e] eqn:E; simpl in H; [|discriminate].
    destruct (mapM f l) as [ys|e]; simpl in H; [|discriminate].
    injection H as <-. constructor; [exact E | apply IH; reflexivity].
Qed.

(** [mapM] succeeds where the function succeeds on every element. *)
Lemma mapM_succeeds (f : A -> py B) (l : list A) :
  Forall (fun x => exists y, f x = Ok y) l -> exists r, mapM f l = Ok r.
Proof.
  induction 1 as [|x l [y E] _ [r IH]]; simpl.
  - eexists; reflexivity.
  - rewrite E, IH. simpl. eexists; reflexivity.
Qed.

Lemma select_map (p : A -> bool) (g : A -> B) (l : list A) :
  select (map p l) (map g l) = map g (filter p l).
Proof.
  induction l as [|x l IH]; simpl; [reflexivity|].
  destruct (p x); simpl; rewrite IH; reflexivity.
Qed.

Lemma select_In (mask : list bool) (l : list A) (x : A) :
  In x (select mask l) -> In x l.
Proof.
  revert l. induction mask as [|b m IH]; intros [|y l]; simpl; try tauto.
  destruct b; simpl; intros H.
  - destruct H as [H|H]; [left; exact H | right; apply IH, H].
  - right; apply IH, H.
Qed.

(** Position [i * n + j] of blocks of length [n] laid end to end is
    position [j] of block [i]. *)
Lemma nth_error_concat (ls : list (list A)) (n i j : nat) (b : list A) :
  Forall (fun l => length l = n) ls ->
  nth_error ls i = Some b -> j < n ->
  nth_error (List.concat ls) (i * n + j) = nth_error b j.
Proof.
  intros Hall. revert i. induction Hall as [|l ls Hl _ IH]; intros i Hi Hj.
  - destruct i; discriminate Hi.
  - destruct i as [|i]; simpl in *.
    + injection Hi as ->. rewrite nth_error_app1 by lia. reflexivity.
    + rewrite nth_error_app2 by lia.
      replace (n + i * n + j - length l) with (i * n + j) by lia.
      apply IH; assumption.
Qed.

Lemma length_concat (ls : list (list A)) (n : nat) :
  Forall (fun l => length l = n) ls ->
  length (List.concat ls) = length ls * n.
Proof.
  induction 1 as [|l ls Hl _ IH]; simpl; [reflexivity|].
  rewrite length_app, IH, Hl. reflexivity.
Qed.

Lemma Forall_repeat {C : Type} (P : C -> Prop) (x : C) (n : nat) :
  P x -> Forall P (repeat x n).
Proof. intros H. induction n; simpl; constructor; assumption. Qed.

Lemma length_tile (l : list A) (k : nat) : length (tile l k) = k * length l.
Proof.
  unfold tile. rewrite (length_concat _ (length l)).
  - rewrite repeat_length. reflexivity.
  - apply Forall_repeat. reflexivity.
Qed.

Lemma nth_error_tile (l : list A) (k i j : nat) :
  i < k -> j < length l ->
  nth_error (tile l k) (i * length l + j) = nth_error l j.
Proof.
  intros Hi Hj. unfold tile. apply nth_error_concat.
  - apply Forall_repeat. reflexivity.
  - apply nth_error_repeat, Hi.
  - exact Hj.
Qed.

Lemma length_flat_map_blocks {C : Type} (f : C -> list A) (cs : list C) (n : nat) :
  Forall (fun c => length (f c) = n) cs ->
  length (flat_map f cs) = length cs * n.
Proof.
  intros H. rewrite flat_map_concat_map, (length_concat _ n).
  - rewrite length_map. reflexivity.
  - rewrite Forall_map. exact H.
Qed.

Lemma nth_error_flat_map_blocks {C : Type} (f : C -> list A) (cs : list C)
    (n i j : nat) (c : C) :
  Forall (fun c => length (f c) = n) cs ->
  nth_error cs i = Some c -> j < n ->
  nth_error (flat_map f cs) (i * n + j) = nth_error (f c) j.
Proof.
  intros H Hi Hj. rewrite flat_map_concat_map. apply nth_error_concat.
  - rewrite Forall_map. exact H.
  - apply map_nth_error, Hi.
  - exact Hj.
Qed.

Lemma Forall2_In_r (R : A -> B -> Prop) (l : list A) (r : list B) (y : B) :
  Forall2 R l r -> In y r -> exists x, In x l /\ R x y.
Proof.
  induction 1 as [|x y' l r HR _ IH]; simpl; [tauto|].
  intros [<-|H].
  - exists x. auto.
  - destruct (IH H) as (x' & Hx & HR'). exists x'. auto.
Qed.

End ListFacts.

Section FrameFacts.

Lemma lookup_cons (n : string) (s : Series) (frame : DataFrame) (name : string) :
  lookup ((n, s) :: frame) name
  = if String.eqb n name then Some s else lookup frame name.
Proof.
  unfold lookup. simpl. destruct (String.eqb n name); reflexivity.
Qed.

Lemma lookup_setitem_same (frame : DataFrame) (name : string) (s : Series) :
  lookup (setitem frame name s) name = Some s.
Proof.
  induction frame as [|[n old] rest IH]; simpl.
  - rewrite lookup_cons, String.eqb_refl. reflexivity.
  - destruct (String.eqb n name) eqn:E.
    + rewrite lookup_cons, String.eqb_refl. reflexivity.
    + rewrite lookup_cons, E. exact IH.
Qed.

Lemma lookup_setitem_other (frame : DataFrame) (name other : string) (s : Series) :
  name <> other ->
  lookup (setitem frame name s) other = lookup frame other.
Proof.
  intros Hne. apply String.eqb_neq in Hne.
  induction frame as [|[n old] rest IH]; simpl.
  - rewrite lookup_cons, Hne. reflexivity.
  - destruct (String.eqb n name) eqn:E.
    + apply String.eqb_eq in E. subst n.
      rewrite !lookup_cons, Hne. reflexivity.
    + rewrite !lookup_cons, IH. reflexivity.
Qed.

Lemma lookup_boolean_index (frame : DataFrame) (mask : list bool) (name : string) :
  lookup (boolean_index frame mask) name = option_map (select mask) (lookup frame name).
Proof.
  induction frame as [|[n s] rest IH]; [reflexivity|].
  unfold boolean_index in *. simpl. rewrite !lookup_cons.
  destruct (String.eqb n name); [reflexivity | exact IH].
Qed.

Lemma lookup_In (frame : DataFrame) (name : string) :
  In name (columns frame) -> exists s, lookup frame name = Some s /\ In (name, s) frame.
Proof.
  induction frame as [|[n s] rest IH]; simpl; [tauto|].
  intros H. rewrite lookup_cons. destruct (String.eqb n name) eqn:E.
  - apply String.eqb_eq in E. subst n. eauto.
  - destruct H as [H|H]; [apply String.eqb_neq in E; contradiction|].
    destruct (IH H) as (s' & L & I). eauto.
Qed.

Lemma has_column_In (frame : DataFrame) (name : string) :
  has_column frame name = true <-> In name (columns frame).
Proof.
  unfold has_column. split.
  - induction frame as [|[n s] rest IH]; simpl.
    + discriminate.
    + rewrite lookup_cons. destruct (String.eqb n name) eqn:E.
      * apply String.eqb_eq in E. auto.
      * auto.
  - intros H. destruct (lookup_In frame name H) as (s & -> & _). reflexivity.
Qed.

(** In a well-formed frame every column holds one cell per row. *)
Lemma length_values_of (frame : DataFrame) (name : string) :
  well_formed frame -> In name (columns frame) ->
  length (values_of frame name) = nrows frame.
Proof.
  intros [_ Hlen] Hin. unfold values_of.
  destruct (lookup_In frame name Hin) as (s & -> & I).
  rewrite Forall_forall in Hlen. apply (Hlen _ I).
Qed.

(** The columns that [melt] puts in front do not hide the two it adds, when
    the identifiers do not bear their names. *)
Lemma lookup_after_ids (g : string -> Series) (id_vars : list string)
    (rest : DataFrame) (name : string) :
  ~ In name id_vars ->
  lookup (map (fun col => (col, g col)) id_vars ++ rest) name = lookup rest name.
Proof.
  induction id_vars as [|c ids IH]; simpl; intros H; [reflexivity|].
  rewrite lookup_cons. destruct (String.eqb c name) eqn:E.
  - apply String.eqb_eq in E. tauto.
  - apply IH. tauto.
Qed.

Lemma lookup_among_ids (g : string -> Series) (id_vars : list string)
    (rest : DataFrame) (name : string) :
  In name id_vars ->
  lookup (map (fun col => (col, g col)) id_vars ++ rest) name = Some (g name).
Proof.
  induction id_vars as [|c ids IH]; simpl; intros H; [tauto|].
  rewrite lookup_cons. destruct (String.eqb c name) eqn:E.
  - apply String.eqb_eq in E. subst c. reflexivity.
  - apply IH. destruct H as [H|H]; [apply String.eqb_neq in E; contradiction | exact H].
Qed.

End FrameFacts.

(* ================================================================== *)
(** * Properties of the quarter labels *)

Section LabelFacts.

Lemma fields_eqb_eq (a b : Z * Z * Z * (Z * Z * Z * Z)) :
  fields_eqb a b = true -> a = b.
Proof.
  destruct a as [[[y1 m1] d1] [[[h1 i1] s1] n1]].
  destruct b as [[[y2 m2] d2] [[[h2 i2] s2] n2]].
  unfold fields_eqb. rewrite !andb_true_iff, !Z.eqb_eq.
  intros [[[[[[-> ->] ->] ->] ->] ->] ->]. reflexivity.
Qed.

Lemma quarter_end_check_sound (y q : nat) :
  quarter_end_check y q = true ->
  exists t : Timestamp,
    quarter_end_of_label (quarter_label y q) = Ok t /\
    dt_fields t = quarter_last_instant (Z.of_nat y) (Z.of_nat q) /\
    dt_fields (t + 1)%Z = next_quarter_first_instant (Z.of_nat y) (Z.of_nat q).
Proof.
  unfold quarter_end_check.
  destruct (quarter_end_of_label (quarter_label y q)) as [t|e]; [|discriminate].
  rewrite andb_true_iff. intros [H1 H2].
  exists t. split; [reflexivity|].
  split; apply fields_eqb_eq; assumption.
Qed.

(** Every quarter of every year that a 64-bit timestamp can hold in full. *)
Lemma quarter_end_check_all :
  forallb (fun y => forallb (quarter_end_check y) (seq 1 4)) (seq 1678 584) = true.
Proof. vm_compute. reflexivity. Qed.

Lemma quarter_end_checked (y q : nat) :
  1678 <= y <= 2261 -> 1 <= q <= 4 -> quarter_end_check y q = true.
Proof.
  intros Hy Hq.
  pose proof quarter_end_check_all as H.
  rewrite forallb_forall in H.
  specialize (H y). rewrite forallb_forall in H.
  apply H; apply in_seq; lia.
Qed.

End LabelFacts.

(* ================================================================== *)
(** * Properties of [melt] and [to_long] *)

Section ReshapeFacts.

(** ** Lists of names *)

Lemma mem_In (c : string) (l : list string) : mem c l = true <-> In c l.
Proof.
  unfold mem. rewrite existsb_exists. split.
  - intros (x & Hx & E). apply String.eqb_eq in E. subst x. exact Hx.
  - intros H. exists c. split; [exact H | apply String.eqb_refl].
Qed.

Lemma In_without (c x : string) (l : list string) :
  In x (without c l) <-> In x l /\ x <> c.
Proof.
  unfold without. rewrite filter_In, negb_true_iff, String.eqb_neq.
  split; intros [H1 H2]; split; auto.
Qed.

Lemma without_absent (c : string) (l : list string) :
  ~ In c l -> without c l = l.
Proof.
  intros H. unfold without. induction l as [|x l IH]; simpl; [reflexivity|].
  destruct (String.eqb c x) eqn:E; simpl.
  - apply String.eqb_eq in E. subst x. exfalso. apply H. left. reflexivity.
  - rewrite IH; [reflexivity|]. intros Hin. apply H. right. exact Hin.
Qed.

Lemma unique_In (x : string) (l : list string) : In x (unique l) <-> In x l.
Proof.
  induction l as [|c l IH]; simpl; [tauto|].
  rewrite In_without, IH.
  destruct (string_dec c x) as [->|Hne]; [tauto|].
  split; [tauto|]. intros [H|H]; [contradiction|]. right. split; [exact H|congruence].
Qed.

Lemma unique_NoDup (l : list string) : NoDup l -> unique l = l.
Proof.
  induction 1 as [|c l Hc _ IH]; simpl; [reflexivity|].
  rewrite IH, without_absent by exact Hc. reflexivity.
Qed.

(** Popping distinct identifiers that are no value columns leaves the value
    columns. *)
Lemma pop_id_vars_Ok (id_vars value_vars : list string) :
  NoDup id_vars ->
  (forall c, In c id_vars -> ~ In c value_vars) ->
  pop_id_vars (id_vars ++ value_vars) id_vars false = Ok value_vars.
Proof.
  induction 1 as [|c ids Hc _ IH]; intros Hdis; [reflexivity|].
  cbn [pop_id_vars app].
  assert (Hm : mem c (c :: ids ++ value_vars) = true)
    by (apply mem_In; left; reflexivity).
  assert (Hw : without c (c :: ids ++ value_vars) = ids ++ value_vars).
  { unfold without. cbn [filter]. rewrite String.eqb_refl. cbn [negb].
    apply (without_absent c (ids ++ value_vars)).
    intros Hin. apply in_app_or in Hin. destruct Hin as [Hin|Hin];
      [exact (Hc Hin) | exact (Hdis c (or_introl eq_refl) Hin)]. }
  rewrite Hm, Hw. apply IH. intros x Hx. apply Hdis. right. exact Hx.
Qed.

(** Whatever is left after the identifiers are popped was in the frame and
    is no identifier. *)
Lemma pop_id_vars_left (remaining id_vars rest : list string) (b : bool) :
  pop_id_vars remaining id_vars b = Ok rest ->
  forall x, In x rest -> In x remaining /\ ~ In x id_vars.
Proof.
  revert remaining. induction id_vars as [|c ids IH]; simpl; intros remaining H x Hx.
  - injection H as <-. tauto.
  - destruct (mem c remaining); [|discriminate H].
    destruct b; [discriminate H|].
    destruct (IH _ H x Hx) as [H1 H2]. apply In_without in H1.
    split; [tauto|]. intros [E|E]; [symmetry in E|]; tauto.
Qed.

(** A repeated identifier is popped twice: [melt] raises. *)
Lemma pop_id_vars_repeated (remaining id_vars : list string) (b : bool) :
  ~ NoDup id_vars -> exists e, pop_id_vars remaining id_vars b = Raise e.
Proof.
  revert remaining. induction id_vars as [|c ids IH]; intros remaining Hdup.
  - exfalso. apply Hdup. constructor.
  - simpl. destruct (mem c remaining); [|eexists; reflexivity].
    destruct b; [eexists; reflexivity|].
    destruct (in_dec string_dec c ids) as [Hin|Hout].
    + clear IH Hdup. revert remaining.
      induction ids as [|x ids IH]; [destruct Hin|]. intros remaining. simpl.
      destruct (mem x (without c remaining)) eqn:E; [|eexists; reflexivity].
      apply mem_In, In_without in E. destruct E as [Hx Hne].
      destruct Hin as [Hin|Hin]; [subst x; congruence|].
      destruct (IH Hin (without x remaining)) as [e He].
      replace (without x (without c remaining)) with (without c (without x remaining)).
      * exists e. exact He.
      * unfold without. clear. induction remaining as [|y l IHl]; simpl; [reflexivity|].
        destruct (String.eqb x y) eqn:Ex, (String.eqb c y) eqn:Ec; simpl;
          rewrite ?Ex, ?Ec; simpl; rewrite IHl; reflexivity.
    + apply IH. intros Hnd. apply Hdup. constructor; assumption.
Qed.

(** ** [melt] *)

Lemma melted_plain (frame : DataFrame) (id_vars rest : list string) (K : nat)
    (var_name value_name : string) :
  ~ In var_name id_vars -> ~ In value_name id_vars -> var_name <> value_name ->
  melted frame id_vars rest K var_name value_name
  = map (fun col => (col, tile (values_of frame col) K)) id_vars
    ++ [(var_name, flat_map (fun c => repeat (VStr c) (nrows frame)) rest);
        (value_name, flat_map (fun c => values_of frame c) rest)].
Proof.
  intros Hvar Hval Hne. unfold melted. rewrite map_app. f_equal.
  - apply map_ext_in. intros c Hc.
    destruct (String.eqb c var_name) eqn:E1;
      [apply String.eqb_eq in E1; subst c; contradiction|].
    destruct (String.eqb c value_name) eqn:E2;
      [apply String.eqb_eq in E2; subst c; contradiction|].
    reflexivity.
  - simpl. rewrite !String.eqb_refl.
    apply String.eqb_neq in Hne. rewrite String.eqb_sym, Hne. reflexivity.
Qed.

Lemma melt_Ok (frame : DataFrame) (id_vars value_vars : list string)
    (var_name value_name : string) :
  ~ In value_name (columns frame) ->
  incl id_vars (columns frame) -> incl value_vars (columns frame) ->
  NoDup id_vars -> NoDup value_vars ->
  (forall c, In c id_vars -> ~ In c value_vars) ->
  melt frame id_vars value_vars var_name value_name
  = Ok (melted frame id_vars value_vars (length value_vars) var_name value_name).
Proof.
  intros Hval Hid Hvv Hnd1 Hnd2 Hdis. unfold melt.
  destruct (has_column frame value_name) eqn:E;
    [apply has_column_In in E; contradiction|].
  replace (forallb (has_column frame) (id_vars ++ value_vars)) with true.
  2:{ symmetry. apply forallb_forall. intros c Hc.
      apply has_column_In. apply in_app_or in Hc. destruct Hc; auto. }
  simpl negb. cbv iota.
  assert (Hnd : NoDup (id_vars ++ value_vars)).
  { apply NoDup_app; [exact Hnd1 | exact Hnd2 |]. intros x H1 H2. exact (Hdis x H1 H2). }
  rewrite (unique_NoDup _ Hnd), length_app.
  replace (Z.of_nat (length id_vars + length value_vars) - Z.of_nat (length id_vars))%Z
    with (Z.of_nat (length value_vars)) by lia.
  replace (Z.of_nat (length value_vars) <? 0)%Z with false by (symmetry; apply Z.ltb_ge; lia).
  simpl andb. rewrite (pop_id_vars_Ok _ _ Hnd1 Hdis). simpl.
  rewrite Nat2Z.id. reflexivity.
Qed.

(** Distinct identifiers of the frame are popped without an error. *)
Lemma pop_id_vars_some (remaining id_vars : list string) :
  NoDup id_vars -> incl id_vars remaining ->
  exists rest, pop_id_vars remaining id_vars false = Ok rest.
Proof.
  intros H. revert remaining. induction H as [|c ids Hc _ IH]; intros remaining Hin.
  - eexists. reflexivity.
  - cbn [pop_id_vars].
    replace (mem c remaining) with true
      by (symmetry; apply mem_In, Hin; left; reflexivity).
    apply IH. intros x Hx. apply In_without. split.
    + apply Hin. right. exact Hx.
    + intros ->. exact (Hc Hx).
Qed.

(** [melt] succeeds on distinct identifiers when the names asked for are
    columns of the frame and none is called [value_name]: the value columns
    it keeps are among those asked for. *)
Lemma melt_Ok_some (frame : DataFrame) (id_vars value_vars : list string)
    (var_name value_name : string) :
  ~ In value_name (columns frame) ->
  incl (id_vars ++ value_vars) (columns frame) ->
  NoDup id_vars ->
  exists (rest : list string) (K : nat),
    (forall c, In c rest -> In c value_vars) /\
    melt frame id_vars value_vars var_name value_name
    = Ok (melted frame id_vars rest K var_name value_name).
Proof.
  intros Hval Hin Hnd. unfold melt.
  destruct (has_column frame value_name) eqn:E;
    [apply has_column_In in E; contradiction|].
  replace (forallb (has_column frame) (id_vars ++ value_vars)) with true.
  2:{ symmetry. apply forallb_forall. intros c Hc. apply has_column_In, Hin, Hc. }
  simpl negb. cbv iota.
  assert (Hincl : incl id_vars (unique (id_vars ++ value_vars))).
  { intros c Hc. apply unique_In, in_or_app. left. exact Hc. }
  pose proof (NoDup_incl_length Hnd Hincl) as Hle.
  replace (Z.of_nat (length (unique (id_vars ++ value_vars)))
           - Z.of_nat (length id_vars) <? 0)%Z with false
    by (symmetry; apply Z.ltb_ge; lia).
  simpl andb.
  destruct (pop_id_vars_some _ _ Hnd Hincl) as [rest Hpop]. rewrite Hpop. simpl.
  eexists rest, _. split; [|reflexivity].
  intros c Hc. destruct (pop_id_vars_left _ _ _ _ Hpop c Hc) as [H1 H2].
  apply unique_In, in_app_or in H1. tauto.
Qed.

(** What a successful [melt] built. *)
Lemma melt_inv (frame : DataFrame) (id_vars value_vars : list string)
    (var_name value_name : string) (long : DataFrame) :
  melt frame id_vars value_vars var_name value_name = Ok long ->
  exists (rest : list string) (K : nat),
    (forall c, In c rest -> In c value_vars /\ ~ In c id_vars) /\
    ~ In value_name (columns frame) /\
    long = melted frame id_vars rest K var_name value_name.
Proof.
  unfold melt. destruct (has_column frame value_name) eqn:E; [discriminate|].
  destruct (negb _); [discriminate|].
  destruct (pop_id_vars _ _ _) as [rest|e] eqn:Hpop; simpl; [|discriminate].
  intros H. injection H as <-.
  eexists rest, _. split; [|split; [|reflexivity]].
  - intros c Hc. destruct (pop_id_vars_left _ _ _ _ Hpop c Hc) as [H1 H2].
    split; [|exact H2]. apply unique_In, in_app_or in H1. tauto.
  - intros H. apply has_column_In in H. congruence.
Qed.

Lemma lookup_named (g : string -> Series) (names : list string) (name : string) :
  In name names -> lookup (map (fun col => (col, g col)) names) name = Some (g name).
Proof.
  intros H. rewrite <- (app_nil_r (map _ names)). apply lookup_among_ids, H.
Qed.

(** The column of labels of a melted frame. *)
Lemma lookup_melted_var (frame : DataFrame) (id_vars rest : list string) (K : nat)
    (var_name value_name : string) :
  lookup (melted frame id_vars rest K var_name value_name) var_name
  = Some (flat_map (fun c => repeat (VStr c) (nrows frame)) rest).
Proof.
  unfold melted. rewrite lookup_named.
  - rewrite String.eqb_refl. reflexivity.
  - apply in_or_app. right. left. reflexivity.
Qed.

Lemma Forall2_nth_l {A B : Type} (R : A -> B -> Prop) (l : list A) (r : list B)
    (i : nat) (x : A) :
  Forall2 R l r -> nth_error l i = Some x ->
  exists y, nth_error r i = Some y /\ R x y.
Proof.
  intros H. revert i. induction H as [|a b l r HR _ IH]; intros [|i] Hi;
    simpl in *; try discriminate.
  - injection Hi as ->. eauto.
  - apply IH, Hi.
Qed.

(** The labels that [melt] writes are names of value columns. *)
Lemma melted_labels (value_vars : list string) (n : nat) (v : value) :
  In v (flat_map (fun c => repeat (VStr c) n) value_vars) ->
  exists c, In c value_vars /\ v = VStr c.
Proof.
  rewrite in_flat_map. intros (c & Hc & Hv).
  apply repeat_spec in Hv. eauto.
Qed.

(** ** Columns of a melted frame *)

Lemma find_filter {C : Type} (f : C -> bool) (l : list C) :
  find f l = hd_error (filter f l).
Proof.
  induction l as [|x l IH]; simpl; [reflexivity|].
  destruct (f x); [reflexivity | exact IH].
Qed.

(** What line 41 reads is the column itself, unless the name is borne by
    several columns; the first thing read is then the name. *)
Lemma iter_getitem_inv (frame : DataFrame) (name : string) (labels : Series) :
  iter_getitem frame name = Ok labels ->
  lookup frame name = Some labels \/ exists r, labels = VStr name :: r.
Proof.
  unfold iter_getitem, lookup. rewrite find_filter.
  destruct (filter _ frame) as [|c [|c' cs]] eqn:E; simpl.
  - discriminate.
  - intros H. injection H as <-. left. reflexivity.
  - intros H. injection H as <-. right.
    assert (Hc : In c (filter (fun c => String.eqb (fst c) name) frame))
      by (rewrite E; left; reflexivity).
    apply filter_In in Hc. destruct Hc as [_ Hc]. apply String.eqb_eq in Hc.
    rewrite Hc. eexists. reflexivity.
Qed.

Lemma iter_getitem_once (frame : DataFrame) (name : string) (s : Series) :
  filter (fun c => String.eqb (fst c) name) frame = [(name, s)] ->
  iter_getitem frame name = Ok s.
Proof. unfold iter_getitem. intros ->. reflexivity. Qed.

Lemma filter_after_ids (g : string -> Series) (id_vars : list string)
    (rest : DataFrame) (name : string) :
  ~ In name id_vars ->
  filter (fun c => String.eqb (fst c) name)
    (map (fun col => (col, g col)) id_vars ++ rest)
  = filter (fun c => String.eqb (fst c) name) rest.
Proof.
  induction id_vars as [|c ids IH]; simpl; intros H; [reflexivity|].
  destruct (String.eqb c name) eqn:E.
  - apply String.eqb_eq in E. tauto.
  - apply IH. tauto.
Qed.

Lemma setitem_after_ids (g : string -> Series) (id_vars : list string)
    (rest : DataFrame) (name : string) (s : Series) :
  ~ In name id_vars ->
  setitem (map (fun col => (col, g col)) id_vars ++ rest) name s
  = map (fun col => (col, g col)) id_vars ++ setitem rest name s.
Proof.
  induction id_vars as [|c ids IH]; simpl; intros H; [reflexivity|].
  destruct (String.eqb c name) eqn:E.
  - apply String.eqb_eq in E. tauto.
  - rewrite IH by tauto. reflexivity.
Qed.

End ReshapeFacts.

Section ReshapeSteps.

Variable df : DataFrame.
Variable read_float : string -> option float.

(** ** [to_numeric] *)

Lemma length_all_integers (raw : Series) (zs : list Z) :
  all_integers read_float raw = Some zs -> length zs = length raw.
Proof.
  revert zs. induction raw as [|v r IH]; simpl; intros zs H.
  - injection H as <-. reflexivity.
  - destruct (as_integer read_float v); [|discriminate].
    destruct (all_integers read_float r); [|discriminate].
    injection H as <-. simpl. rewrite (IH l eq_refl). reflexivity.
Qed.

Lemma length_to_numeric (raw : Series) :
  length (to_numeric read_float raw) = length raw.
Proof.
  unfold to_numeric. destruct (forallb is_timelike raw); [apply length_map|].
  destruct (all_integers read_float raw) as [zs|] eqn:E; [|apply length_map].
  destruct (_ || _); rewrite length_map; [apply (length_all_integers _ _ E) | reflexivity].
Qed.

Lemma all_integers_unreadable (raw : Series) (s : string) :
  In (VStr s) raw -> read_float s = None -> all_integers read_float raw = None.
Proof.
  intros Hin Hs. induction raw as [|v r IH]; [destruct Hin|].
  simpl. destruct Hin as [->|Hin].
  - simpl. rewrite Hs. reflexivity.
  - rewrite (IH Hin). destruct (as_integer read_float v); reflexivity.
Qed.

(** A column with a text that is no numeral comes back as doubles, cell by
    cell. *)
Lemma to_numeric_unreadable (raw : Series) (s : string) :
  In (VStr s) raw -> read_float s = None ->
  to_numeric read_float raw
  = map (fun v => VFloat (to_numeric_coerce read_float v)) raw.
Proof.
  intros Hin Hs. unfold to_numeric.
  destruct (forallb is_timelike raw) eqn:E.
  - rewrite forallb_forall in E. specialize (E _ Hin). discriminate E.
  - rewrite (all_integers_unreadable raw s Hin Hs). reflexivity.
Qed.

(** ** [to_long] *)

(** What a successful run of lines 39-42 went through. *)
Lemma to_long_before_filter_inv (_df : DataFrame) (id_vars : list string)
    (long' : DataFrame) :
  to_long_before_filter df read_float _df id_vars = Ok long' ->
  exists long labels stamps raw,
    melt _df id_vars (time_cols df) "Quarter" "Emissions" = Ok long /\
    lookup long "Quarter" = Some labels /\
    mapM period_index_end labels = Ok stamps /\
    lookup long "Emissions" = Some raw /\
    long' = setitem (setitem long "Quarter" (map VTime stamps)) "Emissions"
              (to_numeric read_float raw).
Proof.
  unfold to_long_before_filter.
  destruct (melt _df id_vars (time_cols df) "Quarter" "Emissions") as [long|e];
    [simpl | discriminate].
  destruct (iter_getitem long "Quarter") as [labels|e] eqn:Hq; [simpl | discriminate].
  destruct (mapM period_index_end labels) as [stamps|e] eqn:Hs; [simpl | discriminate].
  unfold getitem. rewrite lookup_setitem_other by discriminate.
  destruct (lookup long "Emissions") as [raw|] eqn:He; [simpl | discriminate].
  intros H. injection H as <-.
  exists long, labels, stamps, raw.
  split; [reflexivity|]. split; [|auto].
  destruct (iter_getitem_inv _ _ _ Hq) as [L|[r ->]]; [exact L|].
  simpl in Hs. discriminate Hs.
Qed.

(** Line 43 on the frame of lines 39-42. *)
Lemma to_long_filter (_df : DataFrame) (id_vars : list string)
    (long : DataFrame) (stamps : list Timestamp) (s : Series) :
  to_long_before_filter df read_float _df id_vars
  = Ok (setitem (setitem long "Quarter" (map VTime stamps)) "Emissions" s) ->
  to_long df read_float _df id_vars
  = Ok (boolean_index
          (setitem (setitem long "Quarter" (map VTime stamps)) "Emissions" s)
          (map (fun t => year_in_range (dt_year t)) stamps)).
Proof.
  intros H. unfold to_long. rewrite H. simpl. unfold getitem.
  rewrite lookup_setitem_other by discriminate.
  rewrite lookup_setitem_same. simpl.
  rewrite mapM_map. simpl. rewrite mapM_total. simpl.
  rewrite map_map. reflexivity.
Qed.

(** What a successful [to_long] went through. *)
Lemma to_long_inv (_df : DataFrame) (id_vars : list string) (out : DataFrame) :
  to_long df read_float _df id_vars = Ok out ->
  exists long labels stamps raw,
    melt _df id_vars (time_cols df) "Quarter" "Emissions" = Ok long /\
    lookup long "Quarter" = Some labels /\
    mapM period_index_end labels = Ok stamps /\
    lookup long "Emissions" = Some raw /\
    to_long_before_filter df read_float _df id_vars
    = Ok (setitem (setitem long "Quarter" (map VTime stamps)) "Emissions"
            (to_numeric read_float raw)) /\
    out = boolean_index
            (setitem (setitem long "Quarter" (map VTime stamps)) "Emissions"
               (to_numeric read_float raw))
            (map (fun t => year_in_range (dt_year t)) stamps).
Proof.
  intros H.
  destruct (to_long_before_filter df read_float _df id_vars) as [long'|e] eqn:Hb.
  - destruct (to_long_before_filter_inv _ _ _ Hb)
      as (long & labels & stamps & raw & Hm & Hq & Hs & He & ->).
    rewrite (to_long_filter _ _ _ _ _ Hb) in H. injection H as <-.
    exists long, labels, stamps, raw. auto 10.
  - unfold to_long in H. rewrite Hb in H. discriminate H.
Qed.

(** The Quarter column of the result: the stamps of the melted rows whose
    year is in range. *)
Lemma to_long_quarter_column (_df : DataFrame) (id_vars : list string) (out : DataFrame) :
  to_long df read_float _df id_vars = Ok out ->
  exists long labels stamps,
    melt _df id_vars (time_cols df) "Quarter" "Emissions" = Ok long /\
    lookup long "Quarter" = Some labels /\
    mapM period_index_end labels = Ok stamps /\
    values_of out "Quarter"
    = map VTime (filter (fun t => year_in_range (dt_year t)) stamps).
Proof.
  intros H.
  destruct (to_long_inv _ _ _ H)
    as (long & labels & stamps & raw & Hm & Hq & Hs & He & _ & ->).
  exists long, labels, stamps. repeat split; try assumption.
  unfold values_of. rewrite lookup_boolean_index.
  rewrite lookup_setitem_other by discriminate.
  rewrite lookup_setitem_same. simpl. apply select_map.
Qed.

End ReshapeSteps.

Section ReshapeRuns.

Lemma mapM_app {A B : Type} (f : A -> py B) (l1 l2 : list A) :
  mapM f (l1 ++ l2)
  = (r1 <- mapM f l1 ;; r2 <- mapM f l2 ;; Ok (r1 ++ r2)).
Proof.
  induction l1 as [|x l1 IH]; simpl.
  - destruct (mapM f l2); reflexivity.
  - destruct (f x); simpl; [|reflexivity]. rewrite IH.
    destruct (mapM f l1); simpl; [|reflexivity].
    destruct (mapM f l2); reflexivity.
Qed.

Lemma mapM_repeat {A B : Type} (f : A -> py B) (x : A) (y : B) (n : nat) :
  f x = Ok y -> mapM f (repeat x n) = Ok (repeat y n).
Proof.
  intros H. induction n as [|n IH]; simpl; [reflexivity|].
  rewrite H, IH. reflexivity.
Qed.

(** Reading the labels of the melted rows is reading each column label once
    and repeating the result for every row. *)
Lemma mapM_melted_labels (tc : list string) (ts : list Timestamp) (n : nat) :
  mapM quarter_end_of_label tc = Ok ts ->
  mapM period_index_end (flat_map (fun c => repeat (VStr c) n) tc)
  = Ok (flat_map (fun t => repeat t n) ts).
Proof.
  revert ts. induction tc as [|c tc IH]; simpl; intros ts H.
  - injection H as <-. reflexivity.
  - destruct (quarter_end_of_label c) as [t|e] eqn:E; simpl in H; [|discriminate].
    destruct (mapM quarter_end_of_label tc) as [ts'|e]; simpl in H; [|discriminate].
    injection H as <-. rewrite mapM_app.
    rewrite (mapM_repeat period_index_end (VStr c) t n E), (IH ts' eq_refl).
    reflexivity.
Qed.

Lemma map_flat_repeat {A B : Type} (g : A -> B) (n : nat) (l : list A) :
  map g (flat_map (fun t => repeat t n) l) = flat_map (fun t => repeat (g t) n) l.
Proof.
  induction l as [|t l IH]; simpl; [reflexivity|].
  rewrite map_app, IH. f_equal. apply map_repeat.
Qed.

Lemma select_all {A : Type} (mask : list bool) (l : list A) :
  Forall (fun b => b = true) mask -> length l <= length mask ->
  select mask l = l.
Proof.
  intros H. revert l. induction H as [|b m Hb _ IH]; intros [|x l] Hl; simpl in *;
    try reflexivity; try lia.
  subst b. rewrite IH by lia. reflexivity.
Qed.

Lemma boolean_index_all (frame : DataFrame) (mask : list bool) :
  Forall (fun b => b = true) mask ->
  Forall (fun c => length (snd c) <= length mask) frame ->
  boolean_index frame mask = frame.
Proof.
  intros Hm. unfold boolean_index. induction 1 as [|[n s] rest Hc _ IH]; simpl;
    [reflexivity|].
  rewrite IH, (select_all mask s Hm Hc). reflexivity.
Qed.

(** A label that passes the prefix test and is read as a quarter has its end
    in a year of 2010..2024. *)
Lemma recognised_label_year (c : string) (t : Timestamp) :
  startswith c year_prefixes = true ->
  quarter_end_of_label c = Ok t ->
  year_in_range (dt_year t) = true.
Proof.
  intros Hp Hq.
  rewrite <- (string_of_list_ascii_of_string c) in Hp.
  unfold quarter_end_of_label, parse_quarter_label in Hq.
  destruct (list_ascii_of_string c) as [|y1 [|y2 [|y3 [|y4 [|q [|n [|x r]]]]]]];
    try discriminate Hq.
  unfold startswith in Hp. apply existsb_exists in Hp.
  destruct Hp as (p & Hin & Hp).
  vm_compute in Hin.
  repeat (destruct Hin as [<-|Hin]; [|]); try contradiction.
  all: simpl in Hp.
  all: repeat match type of Hp with
       | (if ?d then _ else _) = true => destruct d as [<-|_]; [|discriminate Hp]
       end.
  all: destruct (digit_of n) as [k|] eqn:En; [|discriminate Hq].
  all: change (digit_of "0") with (Some 0%Z) in Hq;
       change (digit_of "1") with (Some 1%Z) in Hq;
       change (digit_of "2") with (Some 2%Z) in Hq;
       change (digit_of "3") with (Some 3%Z) in Hq;
       change (digit_of "4") with (Some 4%Z) in Hq;
       change (digit_of "5") with (Some 5%Z) in Hq;
       change (digit_of "6") with (Some 6%Z) in Hq;
       change (digit_of "7") with (Some 7%Z) in Hq;
       change (digit_of "8") with (Some 8%Z) in Hq;
       change (digit_of "9") with (Some 9%Z) in Hq.
  all: cbv iota beta in Hq.
  all: destruct ((q =? "Q")%char && (1 <=? k)%Z && (k <=? 4)%Z) eqn:Ec;
       [|discriminate Hq].
  all: apply andb_true_iff in Ec; destruct Ec as [Ec Ek4];
       apply andb_true_iff in Ec; destruct Ec as [_ Ek1].
  all: assert (Hk : k = 1%Z \/ k = 2%Z \/ k = 3%Z \/ k = 4%Z) by lia.
  all: destruct Hk as [->|[->|[->| ->]]]; vm_compute in Hq;
       injection Hq as <-; reflexivity.
Qed.

(** The names asked for, when they are distinct columns of the table. *)
Lemma names_split (id_vars value_vars cols : list string) :
  NoDup (id_vars ++ value_vars) -> incl (id_vars ++ value_vars) cols ->
  NoDup id_vars /\ NoDup value_vars /\
  (forall c, In c id_vars -> ~ In c value_vars) /\
  incl id_vars cols /\ incl value_vars cols.
Proof.
  intros Hnd Hin.
  split; [exact (NoDup_app_remove_r _ _ Hnd)|].
  split; [exact (NoDup_app_remove_l _ _ Hnd)|].
  split.
  - intros c H1 H2. revert Hnd H1 H2. clear. induction id_vars as [|x l IH]; simpl;
      intros Hnd H1 H2; [exact H1|].
    inversion Hnd as [|? ? Hx Hl]; subst.
    destruct H1 as [->|H1]; [apply Hx, in_or_app; right; exact H2 | exact (IH Hl H1 H2)].
  - split; intros c Hc; apply Hin, in_or_app; [left | right]; exact Hc.
Qed.

(** Lines 39-42 after [melt], when the identifiers bear neither of the two
    names that [melt] adds. *)
Lemma to_long_before_filter_melted (df : DataFrame)
    (read_float : string -> option float) (_df : DataFrame)
    (id_vars rest : list string) (K : nat) :
  melt _df id_vars (time_cols df) "Quarter" "Emissions"
  = Ok (melted _df id_vars rest K "Quarter" "Emissions") ->
  ~ In "Quarter"%string id_vars -> ~ In "Emissions"%string id_vars ->
  to_long_before_filter df read_float _df id_vars =
  (stamps <- mapM period_index_end
               (flat_map (fun c => repeat (VStr c) (nrows _df)) rest) ;;
   Ok (map (fun col => (col, tile (values_of _df col) K)) id_vars
       ++ [("Quarter"%string, map VTime stamps);
           ("Emissions"%string,
            to_numeric read_float (flat_map (values_of _df) rest))])).
Proof.
  intros Hm HQ HE.
  unfold to_long_before_filter. rewrite Hm.
  rewrite (melted_plain _ _ _ _ _ _ HQ HE) by discriminate.
  cbn [bind].
  rewrite (iter_getitem_once _ _
             (flat_map (fun c => repeat (VStr c) (nrows _df)) rest)).
  2:{ rewrite (filter_after_ids (fun col => tile (values_of _df col) K)
                 id_vars _ "Quarter"%string HQ).
      reflexivity. }
  cbn [bind].
  destruct (mapM period_index_end _) as [stamps|e]; cbn [bind]; [|reflexivity].
  rewrite (setitem_after_ids _ _ _ "Quarter") by exact HQ.
  cbn [setitem]. rewrite String.eqb_refl.
  unfold getitem. rewrite lookup_after_ids by exact HE.
  rewrite !lookup_cons, String.eqb_refl.
  change (String.eqb "Quarter" "Emissions") with false. cbn [bind].
  rewrite (setitem_after_ids _ _ _ "Emissions") by exact HE.
  cbn [setitem]. change (String.eqb "Quarter" "Emissions") with false.
  cbv iota. rewrite String.eqb_refl. reflexivity.
Qed.

(** Lines 39-42 on a table that holds the distinct columns it is asked
    for. *)
Lemma to_long_before_filter_closed (df : DataFrame)
    (read_float : string -> option float) (_df : DataFrame) (id_vars : list string) :
  NoDup (id_vars ++ time_cols df) ->
  incl (id_vars ++ time_cols df) (columns _df) ->
  ~ In "Quarter"%string id_vars -> ~ In "Emissions"%string (columns _df) ->
  to_long_before_filter df read_float _df id_vars =
  (stamps <- mapM period_index_end
               (flat_map (fun c => repeat (VStr c) (nrows _df)) (time_cols df)) ;;
   Ok (map (fun col => (col, tile (values_of _df col) (length (time_cols df))))
         id_vars
       ++ [("Quarter"%string, map VTime stamps);
           ("Emissions"%string,
            to_numeric read_float (flat_map (values_of _df) (time_cols df)))])).
Proof.
  intros Hnd Hin HQ HE'.
  destruct (names_split _ _ _ Hnd Hin) as (Hnd1 & Hnd2 & Hdis & Hid & Htc).
  assert (HE : ~ In "Emissions"%string id_vars) by (intros H; apply HE', Hid, H).
  apply to_long_before_filter_melted; [|exact HQ | exact HE].
  apply melt_Ok; assumption.
Qed.

(** On distinct columns with readable labels lines 39-42 build N * M rows,
    and the year filter of line 43 keeps every one of them. *)
Lemma to_long_runs (df : DataFrame)
    (read_float : string -> option float) (_df : DataFrame)
    (id_vars : list string) :
  well_formed _df ->
  NoDup (id_vars ++ time_cols df) ->
  incl (id_vars ++ time_cols df) (columns _df) ->
  Forall (fun c => exists t, quarter_end_of_label c = Ok t) (time_cols df) ->
  ~ In "Quarter"%string id_vars -> ~ In "Emissions"%string (columns _df) ->
  let N := length (time_cols df) in
  let M := nrows _df in
  exists (ts : list Timestamp) (long : DataFrame),
    mapM quarter_end_of_label (time_cols df) = Ok ts /\
    long = map (fun col => (col, tile (values_of _df col) N)) id_vars
           ++ [("Quarter"%string, flat_map (fun t => repeat (VTime t) M) ts);
               ("Emissions"%string,
                to_numeric read_float (flat_map (values_of _df) (time_cols df)))] /\
    to_long_before_filter df read_float _df id_vars = Ok long /\
    to_long df read_float _df id_vars = Ok long /\
    Forall (fun col => length (snd col) = N * M) long.
Proof.
  intros Hwf Hnd Hin Hlab HQ HE' N M.
  destruct (names_split _ _ _ Hnd Hin) as (Hnd1 & Hnd2 & Hdis & Hid & Htc).
  assert (HE : ~ In "Emissions"%string id_vars) by (intros H; apply HE', Hid, H).
  destruct (mapM_succeeds quarter_end_of_label (time_cols df) Hlab) as [ts Hts].
  assert (Hlen : forall c, In c (columns _df) -> length (values_of _df c) = M)
    by (intros c Hc; apply length_values_of; assumption).
  assert (Hts_len : length ts = N).
  { apply mapM_Forall2, Forall2_length in Hts. symmetry. exact Hts. }
  assert (Hstamps : length (flat_map (fun t : Timestamp => repeat t M) ts) = N * M).
  { rewrite (length_flat_map_blocks _ _ M), Hts_len; [reflexivity|].
    apply Forall_forall. intros t _. apply repeat_length. }
  assert (Hcols : Forall (fun col : string * Series => length (snd col) = N * M)
            (map (fun col => (col, tile (values_of _df col) N)) id_vars
             ++ [("Quarter"%string,
                  map VTime (flat_map (fun t : Timestamp => repeat t M) ts));
                 ("Emissions"%string,
                  to_numeric read_float (flat_map (values_of _df) (time_cols df)))])).
  { apply Forall_app. split.
    - rewrite Forall_map, Forall_forall. intros col Hcol. simpl.
      rewrite length_tile, Hlen by auto. reflexivity.
    - constructor; [simpl; rewrite length_map; exact Hstamps|].
      constructor; [|constructor]. simpl. rewrite length_to_numeric.
      apply length_flat_map_blocks, Forall_forall. intros c Hc. apply Hlen; auto. }
  assert (Hmask : Forall (fun b => b = true)
            (map (fun t => year_in_range (dt_year t))
               (flat_map (fun t : Timestamp => repeat t M) ts))).
  { rewrite Forall_map, Forall_forall. intros t Ht.
    apply in_flat_map in Ht. destruct Ht as (t' & Ht' & Hrep).
    apply repeat_spec in Hrep. subst t.
    destruct (Forall2_In_r _ _ _ _ (mapM_Forall2 _ _ _ Hts) Ht') as (c & Hc & E).
    apply (recognised_label_year c t'); [|exact E].
    unfold time_cols in Hc. apply filter_In in Hc. apply Hc. }
  assert (Hbefore : to_long_before_filter df read_float _df id_vars
            = Ok (map (fun col => (col, tile (values_of _df col) N)) id_vars
                  ++ [("Quarter"%string,
                       map VTime (flat_map (fun t : Timestamp => repeat t M) ts));
                      ("Emissions"%string,
                       to_numeric read_float
                         (flat_map (values_of _df) (time_cols df)))])).
  { rewrite (to_long_before_filter_closed df read_float _df id_vars Hnd Hin HQ HE').
    rewrite (mapM_melted_labels _ _ _ Hts). reflexivity. }
  assert (Hafter : to_long df read_float _df id_vars
            = Ok (map (fun col => (col, tile (values_of _df col) N)) id_vars
                  ++ [("Quarter"%string,
                       map VTime (flat_map (fun t : Timestamp => repeat t M) ts));
                      ("Emissions"%string,
                       to_numeric read_float
                         (flat_map (values_of _df) (time_cols df)))])).
  { unfold to_long. rewrite Hbefore. cbn [bind]. unfold getitem.
    rewrite lookup_after_ids by exact HQ.
    rewrite lookup_cons, String.eqb_refl. cbn [bind].
    rewrite mapM_map. cbn [dt_year_of]. rewrite mapM_total. cbn [bind].
    rewrite map_map. rewrite boolean_index_all; [reflexivity | exact Hmask |].
    eapply Forall_impl; [|exact Hcols].
    intros col Hc. cbv beta in Hc |- *.
    rewrite !length_map. fold M. rewrite Hstamps.
    apply Nat.eq_le_incl. exact Hc. }
  exists ts. eexists. split; [exact Hts|].
  rewrite map_flat_repeat in Hcols, Hbefore, Hafter.
  split; [reflexivity|]. split; [exact Hbefore|]. split; [exact Hafter | exact Hcols].
Qed.

End ReshapeRuns.

(* ================================================================== *)
(** * The reshape: rows, years, coercion *)

Section ReshapeClaims.

(** C7. For a wide table of M rows with distinct column names, none of them
    Emissions, and [to_long] called on distinct identifier columns of it that
    are no quarter columns, none of them Quarter: lines 39-42, the reshape
    before the year filter, succeed and give the identifier columns, in their
    order, followed by the Quarter and the Emissions column, each of N * M
    cells for the N recognised quarter columns. Row i * M + j of it is the
    pair of quarter column i and source row j: it carries the quarter end
    read from the label of that column, the coerced cell of that column in
    that row, and the identifier cells of that row unchanged. The result of
    [to_long] is this frame under the year mask of line 43. *)
Theorem to_long_melt_rows (df : DataFrame)
    (read_float : string -> option float) (_df : DataFrame)
    (id_vars : list string) :
  well_formed _df ->
  id_vars <> [] ->
  NoDup (id_vars ++ time_cols df) ->
  incl (id_vars ++ time_cols df) (columns _df) ->
  Forall (fun c => exists t, quarter_end_of_label c = Ok t) (time_cols df) ->
  ~ In "Quarter"%string id_vars -> ~ In "Emissions"%string (columns _df) ->
  let N := length (time_cols df) in
  let M := nrows _df in
  let raw := flat_map (values_of _df) (time_cols df) in
  exists (long : DataFrame) (years : list Z),
    to_long_before_filter df read_float _df id_vars = Ok long /\
    columns long = id_vars ++ ["Quarter"%string; "Emissions"%string] /\
    Forall (fun col => length (snd col) = N * M) long /\
    values_of long "Emissions" = to_numeric read_float raw /\
    (forall (i j : nat) (c : string),
       nth_error (time_cols df) i = Some c -> j < M ->
       (exists t, quarter_end_of_label c = Ok t /\
          nth_error (values_of long "Quarter") (i * M + j) = Some (VTime t)) /\
       nth_error raw (i * M + j) = nth_error (values_of _df c) j /\
       Forall (fun col => nth_error (values_of long col) (i * M + j)
                          = nth_error (values_of _df col) j) id_vars) /\
    mapM dt_year_of (values_of long "Quarter") = Ok years /\
    to_long df read_float _df id_vars
    = Ok (boolean_index long (map year_in_range years)).
Proof.
  intros Hwf _ Hnd Hin Hlab HQ HE' N M raw.
  destruct (to_long_runs df read_float _df id_vars Hwf Hnd Hin Hlab HQ HE')
    as (ts & long & Hts & Hlong & Hbefore & _ & Hrows).
  fold N in Hlong, Hrows. fold M in Hlong, Hrows. fold raw in Hlong.
  destruct (names_split _ _ _ Hnd Hin) as (_ & _ & _ & Hid & Htc).
  assert (HE : ~ In "Emissions"%string id_vars) by (intros H; apply HE', Hid, H).
  assert (Hlen : forall c, In c (columns _df) -> length (values_of _df c) = M)
    by (intros c Hc; apply length_values_of; assumption).
  assert (HvQ : values_of long "Quarter" = flat_map (fun t => repeat (VTime t) M) ts).
  { subst long. unfold values_of. rewrite lookup_after_ids by exact HQ.
    rewrite lookup_cons, String.eqb_refl. reflexivity. }
  assert (HvE : values_of long "Emissions" = to_numeric read_float raw).
  { subst long. unfold values_of. rewrite lookup_after_ids by exact HE.
    rewrite !lookup_cons, String.eqb_refl. reflexivity. }
  exists long, (map dt_year (flat_map (fun t => repeat t M) ts)).
  split; [exact Hbefore|].
  split.
  { subst long. unfold columns. rewrite map_app, map_map. simpl.
    rewrite map_id. reflexivity. }
  split; [exact Hrows|]. split; [exact HvE|].
  assert (Hyears : mapM dt_year_of (values_of long "Quarter")
                   = Ok (map dt_year (flat_map (fun t => repeat t M) ts))).
  { rewrite HvQ, <- (map_flat_repeat VTime), mapM_map. cbn [dt_year_of].
    apply mapM_total. }
  split; [|split; [exact Hyears|]].
  - intros i j c Hi Hj.
    assert (HiN : i < N) by (apply nth_error_Some; rewrite Hi; discriminate).
    destruct (Forall2_nth_l _ _ _ _ _ (mapM_Forall2 _ _ _ Hts) Hi) as (t & Ht & Hct).
    split; [|split].
    + exists t. split; [exact Hct|]. rewrite HvQ.
      rewrite (nth_error_flat_map_blocks _ _ M i j t); auto.
      * apply nth_error_repeat, Hj.
      * apply Forall_forall. intros t' _. apply repeat_length.
    + unfold raw. apply nth_error_flat_map_blocks; auto.
      apply Forall_forall. intros c' Hc'. apply Hlen; auto.
    + apply Forall_forall. intros col Hcol.
      assert (Hv : values_of long col = tile (values_of _df col) N).
      { subst long. unfold values_of at 1.
        rewrite (lookup_among_ids (fun col => tile (values_of _df col) N)) by exact Hcol.
        reflexivity. }
      rewrite Hv. rewrite <- (Hlen col) at 1 by auto.
      apply nth_error_tile; [exact HiN | rewrite Hlen by auto; exact Hj].
  - unfold to_long. rewrite Hbefore. cbn [bind]. unfold getitem.
    assert (HlQ : lookup long "Quarter" = Some (values_of long "Quarter")).
    { subst long. unfold values_of. rewrite lookup_after_ids by exact HQ.
      rewrite lookup_cons, String.eqb_refl. reflexivity. }
    rewrite HlQ. cbn [bind]. rewrite Hyears. reflexivity.
Qed.

Lemma to_long_melt_rows_witness :
  well_formed sample /\
  exists (long : DataFrame),
    to_long_before_filter sample read_digits sample ["Country"; "Industry"]%string
    = Ok long /\
    Forall (fun col => length (snd col) = 2 * 3) long /\
    nth_error (values_of long "Quarter") (1 * 3 + 2)
    = Some (VTime 1735689599999999999%Z) /\
    nth_error (values_of long "Country") (1 * 3 + 2) = Some (VStr "CY") /\
    to_long sample read_digits sample ["Country"; "Industry"]%string = Ok long.
Proof.
  assert (Hwf : well_formed sample).
  { split.
    - vm_compute. repeat constructor; simpl; intuition discriminate.
    - vm_compute. repeat constructor. }
  split; [exact Hwf|].
  assert (Htc : time_cols sample = ["2015Q3"; "2024Q4"]%string)
    by (vm_compute; reflexivity).
  destruct (to_long_melt_rows sample read_digits sample ["Country"; "Industry"]%string Hwf)
    as (long & years & Hb & _ & Hrows & _ & Hcell & Hy & Hout).
  - discriminate.
  - rewrite Htc. vm_compute. repeat constructor; simpl; intuition discriminate.
  - rewrite Htc. intros c Hc. simpl in Hc. vm_compute. intuition.
  - rewrite Htc. repeat constructor; eexists; vm_compute; reflexivity.
  - simpl. intuition discriminate.
  - vm_compute. intuition discriminate.
  - exists long. split; [exact Hb|].
    rewrite Htc in Hrows. split; [exact Hrows|].
    destruct (Hcell 1 2 "2024Q4"%string) as ((t & Ht & HQ) & _ & Hids).
    + rewrite Htc. reflexivity.
    + vm_compute. lia.
    + vm_compute in Ht. injection Ht as <-.
      split; [exact HQ|].
      inversion Hids as [|? ? Hc _]. split; [exact Hc|].
      rewrite Hout. vm_compute in Hb. injection Hb as <-.
      vm_compute in Hy. injection Hy as <-. vm_compute. reflexivity.
Defined.



(** C6. The label of quarter q of year y (four digits, Q, one digit; every
    year a timestamp can hold in full) is read as the last instant of that
    quarter: 23:59:59.999999999 on the last day of its closing month, one
    nanosecond before the first instant of the next quarter; 2015Q3 is read
    as 2015-09-30 23:59:59.999999999. In the output of [to_long] every
    quarter is the instant so read from the label of a recognised column. *)
Theorem quarter_label_to_quarter_end (y q : nat) :
  1678 <= y <= 2261 -> 1 <= q <= 4 ->
  (exists t : Timestamp,
     quarter_end_of_label (quarter_label y q) = Ok t /\
     dt_fields t = (Z.of_nat y, 3 * Z.of_nat q, quarter_last_day (Z.of_nat q),
                    (23, 59, 59, 999999999))%Z /\
     dt_fields (t + 1)%Z = next_quarter_first_instant (Z.of_nat y) (Z.of_nat q)) /\
  (forall (df : DataFrame) (read_float : string -> option float)
          (_df : DataFrame) (id_vars : list string) (out : DataFrame),
     ~ In "Quarter"%string id_vars ->
     to_long df read_float _df id_vars = Ok out ->
     forall v, In v (values_of out "Quarter") ->
       exists c t, In c (time_cols df) /\ quarter_end_of_label c = Ok t /\ v = VTime t).
Proof.
  intros Hy Hq. split.
  - apply quarter_end_check_sound, quarter_end_checked; assumption.
  - intros df read_float _df id_vars out Hid H v Hv.
    destruct (to_long_quarter_column df read_float _df id_vars out H)
      as (long & labels & stamps & Hm & Hl & Hs & Hout).
    apply melt_inv in Hm. destruct Hm as (rest & K & Hrest & _ & ->).
    rewrite lookup_melted_var in Hl. injection Hl as <-.
    rewrite Hout in Hv. apply in_map_iff in Hv. destruct Hv as (t & <- & Ht).
    apply filter_In in Ht. destruct Ht as [Ht _].
    destruct (Forall2_In_r _ _ _ _ (mapM_Forall2 _ _ _ Hs) Ht) as (x & Hx & E).
    destruct (melted_labels _ _ _ Hx) as (c & Hc & ->).
    exists c, t. split; [apply Hrest, Hc | auto].
Qed.

Lemma quarter_label_to_quarter_end_witness :
  quarter_end_of_label "2015Q3" = Ok 1443657599999999999%Z /\
  dt_fields 1443657599999999999%Z = (2015, 9, 30, (23, 59, 59, 999999999))%Z /\
  dt_fields 1443657600000000000%Z = (2015, 10, 1, (0, 0, 0, 0))%Z /\
  exists out,
    to_long sample read_digits sample ["Country"; "Industry"]%string = Ok out /\
    In (VTime 1443657599999999999%Z) (values_of out "Quarter") /\
    exists c t, In c (time_cols sample) /\ quarter_end_of_label c = Ok t /\
                VTime 1443657599999999999%Z = VTime t.
Proof.
  destruct (quarter_label_to_quarter_end 2015 3) as [(t & E & F & G) Hlong]; [lia | lia |].
  vm_compute in E. injection E as <-.
  split; [reflexivity|]. split; [exact F|]. split; [exact G|].
  destruct (to_long sample read_digits sample ["Country"; "Industry"]%string)
    as [out|e] eqn:E; [|vm_compute in E; discriminate E].
  assert (Hin : In (VTime 1443657599999999999%Z) (values_of out "Quarter")).
  { vm_compute in E. injection E as <-. vm_compute. left. reflexivity. }
  exists out. split; [reflexivity|]. split; [exact Hin|].
  apply (Hlong sample read_digits sample ["Country"; "Industry"]%string out);
    [simpl; intuition discriminate | exact E | exact Hin].
Defined.

(** C9. Whatever the cells of the quarter columns hold, [to_long] raises
    nothing on a table with distinct column names, none of them Emissions,
    when it is called on distinct identifier columns that are no quarter
    columns and the quarter labels are readable; and a cell of a quarter
    column that holds a text which is no numeral, such as N/A, is in the
    Emissions column of the output, on the row of its column and source row,
    the missing marker NaN, which is not zero. *)
Theorem to_long_coerces_to_missing (df : DataFrame)
    (read_float : string -> option float) (_df : DataFrame)
    (id_vars : list string) :
  well_formed _df ->
  id_vars <> [] ->
  NoDup (id_vars ++ time_cols df) ->
  incl (id_vars ++ time_cols df) (columns _df) ->
  Forall (fun c => exists t, quarter_end_of_label c = Ok t) (time_cols df) ->
  ~ In "Quarter"%string id_vars -> ~ In "Emissions"%string (columns _df) ->
  exists out : DataFrame,
    to_long df read_float _df id_vars = Ok out /\
    ~ raises (to_long df read_float _df id_vars) /\
    forall (i j : nat) (c s : string),
      nth_error (time_cols df) i = Some c ->
      nth_error (values_of _df c) j = Some (VStr s) ->
      read_float s = None ->
      exists f : float,
        nth_error (values_of out "Emissions") (i * nrows _df + j) = Some (VFloat f) /\
        is_nan f = true /\ (f =? 0)%float = false.
Proof.
  intros Hwf _ Hnd Hin Hlab HQ HE'.
  destruct (to_long_runs df read_float _df id_vars Hwf Hnd Hin Hlab HQ HE')
    as (ts & long & _ & Hlong & _ & Hrun & _).
  destruct (names_split _ _ _ Hnd Hin) as (_ & _ & _ & Hid & Htc).
  assert (HE : ~ In "Emissions"%string id_vars) by (intros H; apply HE', Hid, H).
  exists long. split; [exact Hrun|].
  split; [intros [e E]; rewrite Hrun in E; discriminate E|].
  intros i j c s Hi Hj Hs.
  assert (Hc : In c (time_cols df)) by (apply nth_error_In in Hi; exact Hi).
  assert (HjM : j < nrows _df).
  { rewrite <- (length_values_of _df c Hwf (Htc c Hc)).
    apply nth_error_Some. rewrite Hj. discriminate. }
  assert (Hraw : nth_error (flat_map (values_of _df) (time_cols df)) (i * nrows _df + j)
                 = Some (VStr s)).
  { rewrite <- Hj. apply nth_error_flat_map_blocks; auto.
    apply Forall_forall. intros c' Hc'. apply length_values_of; auto. }
  assert (HvE : values_of long "Emissions"
                = to_numeric read_float (flat_map (values_of _df) (time_cols df))).
  { subst long. unfold values_of. rewrite lookup_after_ids by exact HE.
    rewrite !lookup_cons, String.eqb_refl. reflexivity. }
  exists nan. split; [|split; reflexivity].
  rewrite HvE.
  rewrite (to_numeric_unreadable read_float _ s (nth_error_In _ _ Hraw) Hs).
  rewrite nth_error_map, Hraw. simpl. rewrite Hs. reflexivity.
Qed.

Lemma to_long_coerces_to_missing_witness :
  read_digits "N/A" = None /\
  exists out,
    to_long sample read_digits sample ["Country"; "Industry"]%string = Ok out /\
    nth_error (values_of out "Emissions") (0 * 3 + 1) = Some (VFloat nan) /\
    values_of out "Emissions"
    = [VFloat 10.5; VFloat nan; VFloat 12; VFloat 7; VFloat nan; VFloat 9].
Proof.
  split; [reflexivity|].
  assert (Htc : time_cols sample = ["2015Q3"; "2024Q4"]%string)
    by (vm_compute; reflexivity).
  destruct (to_long_coerces_to_missing sample read_digits sample
              ["Country"; "Industry"]%string)
    as (out & E & _ & Hcell).
  - split; [vm_compute; repeat constructor; simpl; intuition discriminate
           | vm_compute; repeat constructor].
  - discriminate.
  - rewrite Htc. vm_compute. repeat constructor; simpl; intuition discriminate.
  - rewrite Htc. intros c Hc. simpl in Hc. vm_compute. intuition.
  - rewrite Htc. repeat constructor; eexists; vm_compute; reflexivity.
  - simpl. intuition discriminate.
  - vm_compute. intuition discriminate.
  - exists out. split; [exact E|].
    destruct (Hcell 0 1 "2015Q3"%string "N/A"%string) as (f & Hf & Hnan & _).
    + rewrite Htc. reflexivity.
    + reflexivity.
    + reflexivity.
    + split.
      * change (nrows sample) with 3 in Hf. rewrite Hf.
        vm_compute in E. injection E as <-. vm_compute in Hf.
        injection Hf as <-. reflexivity.
      * vm_compute in E. injection E as <-. vm_compute. reflexivity.
Defined.

End ReshapeClaims.

(* ================================================================== *)
(** * Further properties of [ytrim_from] *)

Section YtrimFurther.
Open Scope float_scope.

Lemma add_nan_r (x : float) : x + nan = nan.
Proof.
  apply Prim2SF_inj. rewrite add_spec.
  change (Prim2SF nan) with S754_nan.
  destruct (Prim2SF x); reflexivity.
Qed.

(** Taking zero from a number leaves the number. *)
Lemma sub_zero_r (x : float) : is_nan x = false -> x - 0 = x.
Proof.
  intros H. apply not_nan_spec in H.
  apply Prim2SF_inj. rewrite sub_spec.
  change (Prim2SF 0) with (S754_zero false).
  destruct (Prim2SF x) as [s|s| |s m e]; try destruct s;
    try reflexivity; congruence.
Qed.

(** A finite number less itself is zero. *)
Lemma sub_diag (c : float) : (abs c <? infinity) = true -> c - c = 0.
Proof.
  rewrite ltb_spec, abs_spec. intros H.
  apply Prim2SF_inj. rewrite sub_spec.
  change (Prim2SF 0) with (S754_zero false).
  change (Prim2SF infinity) with (S754_infinity false) in H.
  destruct (Prim2SF c) as [s|s| |s m e]; try destruct s;
    try discriminate H; try reflexivity;
    unfold SF64sub, SFsub; cbv zeta; rewrite Z.sub_diag; reflexivity.
Qed.

(** A span that is finite, times zero, is zero. *)
Lemma span_mul_zero (a : float) :
  (py_max a epsilon <? infinity) = true -> py_max a epsilon * 0 = 0.
Proof.
  unfold py_max. destruct (a <? epsilon) eqn:E.
  - intros _. reflexivity.
  - intros H. apply Prim2SF_inj. rewrite mul_spec.
    revert E H. rewrite !ltb_spec.
    change (Prim2SF 0) with (S754_zero false).
    change (Prim2SF infinity) with (S754_infinity false).
    set (e := Prim2SF epsilon). vm_compute in e. subst e.
    destruct (Prim2SF a) as [s|s| |s m e]; try destruct s;
      try (intros; reflexivity); intros; discriminate.
Qed.

Lemma filter_filter {A : Type} (f : A -> bool) (l : list A) :
  filter f (filter f l) = filter f l.
Proof.
  induction l as [|x l IH]; simpl; [reflexivity|].
  destruct (f x) eqn:E; simpl; [rewrite E, IH | rewrite IH]; reflexivity.
Qed.

Lemma stack_of_stack (d : grid) : stack [stack d] = stack d.
Proof.
  unfold stack at 1. simpl. rewrite app_nil_r. unfold stack. apply filter_filter.
Qed.

Lemma stack_of_concat (d : grid) : stack [List.concat d] = stack d.
Proof. unfold stack. simpl. rewrite app_nil_r. reflexivity. Qed.

Lemma stack_drops_nan (rows1 rows2 : grid) (r1 r2 : list float) :
  stack (rows1 ++ (r1 ++ nan :: r2) :: rows2) = stack (rows1 ++ (r1 ++ r2) :: rows2).
Proof.
  unfold stack. rewrite !concat_app. simpl.
  rewrite !filter_app. simpl. reflexivity.
Qed.

Lemma ytrim_from_of_stack (d d' : grid) (pad strength : float) (exaggerate floor0 : bool) :
  stack d = stack d' ->
  ytrim_from d pad exaggerate floor0 strength = ytrim_from d' pad exaggerate floor0 strength.
Proof. intros H. unfold ytrim_from. rewrite H. reflexivity. Qed.

(** X1. The range depends on the collection through its non-missing cells
    only: a missing (NaN) cell put anywhere changes nothing, and neither does
    laying all rows out as one row, with or without the missing cells. *)
Theorem ytrim_from_ignores_shape_and_missing (rows1 rows2 : grid)
    (r1 r2 : list float) (pad strength : float) (exaggerate floor0 : bool) :
  let d := rows1 ++ (r1 ++ r2) :: rows2 in
  ytrim_from (rows1 ++ (r1 ++ nan :: r2) :: rows2) pad exaggerate floor0 strength
  = ytrim_from d pad exaggerate floor0 strength /\
  ytrim_from [List.concat d] pad exaggerate floor0 strength
  = ytrim_from d pad exaggerate floor0 strength /\
  ytrim_from [stack d] pad exaggerate floor0 strength
  = ytrim_from d pad exaggerate floor0 strength.
Proof.
  intros d. split; [|split]; apply ytrim_from_of_stack.
  - apply stack_drops_nan.
  - apply stack_of_concat.
  - apply stack_of_stack.
Qed.

(** X2. When every value of the collection is the same finite number c, the
    span falls back to 1e-9 and the range is [c - 1e-9 * pad, c + 1e-9 * pad]
    (lower bound c - 1e-9 * (1 - strength) when exaggerating), the lower bound
    floored at zero when [floor0] is set. *)
Theorem ytrim_from_constant (c : float) (d : grid) (pad strength : float)
    (exaggerate floor0 : bool) :
  stack d <> [] ->
  Forall (fun v => v = c) (stack d) ->
  (abs c <? infinity) = true ->
  py_max (series_max (stack d) - series_min (stack d)) 1e-9 = 1e-9 /\
  ytrim_from d pad exaggerate floor0 strength
  = Ok (let ymin := if exaggerate then c - 1e-9 * (1 - strength)
                    else c - 1e-9 * pad in
        if floor0 then py_max 0 ymin else ymin,
        c + 1e-9 * pad).
Proof.
  intros Hne Hall Hfin.
  destruct (series_constant c (stack d) Hne Hall) as [Hmin Hmax].
  unfold ytrim_from. rewrite Hmin, Hmax, (sub_diag c Hfin).
  change (py_max 0 epsilon) with epsilon.
  split; reflexivity.
Qed.

Lemma ytrim_from_constant_witness :
  ytrim_from [[-3; -3]; [nan; -3]] 0.5 false false default_strength
  = Ok (-3 - 1e-9 * 0.5, -3 + 1e-9 * 0.5).
Proof.
  apply (ytrim_from_constant (-3) [[-3; -3]; [nan; -3]] 0.5 default_strength false false).
  - vm_compute. discriminate.
  - vm_compute. repeat constructor.
  - reflexivity.
Defined.

(** X3. At full strength the exaggeration leaves nothing below the maximum in
    view: with [exaggerate=true] and [strength=1] on a collection with a
    finite span, the lower bound is the maximum itself (floored at zero when
    [floor0] is set). *)
Theorem ytrim_from_full_strength (d : grid) (pad : float) :
  let dmin := series_min (stack d) in
  let dmax := series_max (stack d) in
  let span := py_max (dmax - dmin) 1e-9 in
  stack d <> [] ->
  (span <? infinity) = true ->
  ytrim_from d pad true false 1 = Ok (dmax, dmax + span * pad) /\
  ytrim_from d pad true true 1 = Ok (py_max 0 dmax, dmax + span * pad).
Proof.
  intros dmin dmax span Hne Hfin.
  assert (Hnum : is_nan dmax = false)
    by (apply (stack_not_nan d), series_max_In, Hne).
  assert (Hmin : dmax - span * (1 - 1) = dmax).
  { assert (Hz : span * 0 = 0) by (apply (span_mul_zero (dmax - dmin)), Hfin).
    change (1 - 1) with 0. rewrite Hz. apply sub_zero_r, Hnum. }
  change (ytrim_from d pad true false 1)
    with (Ok (dmax - span * (1 - 1), dmax + span * pad)).
  change (ytrim_from d pad true true 1)
    with (Ok (py_max 0 (dmax - span * (1 - 1)), dmax + span * pad)).
  rewrite Hmin. split; reflexivity.
Qed.

Lemma ytrim_from_full_strength_witness :
  ytrim_from between_100_and_200 default_pad true false 1 = Ok (200, 205).
Proof.
  destruct (ytrim_from_full_strength between_100_and_200 default_pad) as [E _].
  - vm_compute. discriminate.
  - reflexivity.
  - rewrite E. vm_compute. reflexivity.
Defined.

End YtrimFurther.

(* ================================================================== *)
(** * Further properties of [time_cols] and [to_long] *)

Section ReshapeFurther.

(** A prefix no longer than the head of a text is tested on the head alone. *)
Lemma prefix_app_short (p a s : string) :
  String.length p <= String.length a ->
  String.prefix p (a ++ s) = String.prefix p a.
Proof.
  revert a. induction p as [|x p IH]; intros a H;
    [destruct a; simpl; [destruct s|]; reflexivity|].
  destruct a as [|y a]; simpl in H; [lia|].
  simpl. destruct (ascii_dec x y); [apply IH; lia | reflexivity].
Qed.

Lemma startswith_app (prefixes : list string) (a s : string) :
  Forall (fun p => String.length p <= String.length a) prefixes ->
  startswith (a ++ s) prefixes = startswith a prefixes.
Proof.
  unfold startswith. induction 1 as [|p ps Hp _ IH]; simpl; [reflexivity|].
  rewrite IH, (prefix_app_short p a s Hp). reflexivity.
Qed.

(** The prefix test on the text of a four-digit number is the test of the
    number against 2010..2024. *)
Lemma year_prefix_checked :
  forallb (fun y => Bool.eqb (startswith (py_str y) year_prefixes)
                      ((2010 <=? y) && (y <=? 2024))
                    && (String.length (py_str y) =? 4))
          (seq 1000 2000) = true.
Proof. vm_compute. reflexivity. Qed.

Lemma startswith_year (y : nat) (suffix : string) :
  1000 <= y <= 2999 ->
  startswith (py_str y ++ suffix) year_prefixes = ((2010 <=? y) && (y <=? 2024)).
Proof.
  intros Hy. pose proof year_prefix_checked as H.
  rewrite forallb_forall in H. specialize (H y).
  rewrite andb_true_iff in H. destruct H as [H1 H2]; [apply in_seq; lia|].
  apply Nat.eqb_eq in H2. apply eqb_prop in H1. rewrite <- H1.
  apply startswith_app. rewrite H2.
  vm_compute. repeat constructor.
Qed.

(** X4. A column whose name starts with the text of a year from 1000 to 2999
    is a recognised quarter column exactly when it is a column of the table
    and the year lies in 2010..2024, whatever follows the year in the name. *)
Theorem time_cols_by_year (df : DataFrame) (y : nat) (suffix : string) :
  1000 <= y <= 2999 ->
  (In (py_str y ++ suffix)%string (time_cols df)
   <-> In (py_str y ++ suffix)%string (columns df) /\ 2010 <= y <= 2024).
Proof.
  intros Hy. unfold time_cols. rewrite filter_In, (startswith_year y suffix Hy).
  rewrite andb_true_iff, !Nat.leb_le. tauto.
Qed.

Lemma time_cols_by_year_witness :
  In "2015Q3"%string (time_cols sample) /\ ~ In "2025Q1"%string (time_cols sample).
Proof.
  pose proof (time_cols_by_year sample 2015 "Q3") as H1.
  pose proof (time_cols_by_year sample 2025 "Q1") as H2.
  replace (py_str 2015 ++ "Q3")%string with "2015Q3"%string in H1
    by (vm_compute; reflexivity).
  replace (py_str 2025 ++ "Q1")%string with "2025Q1"%string in H2
    by (vm_compute; reflexivity).
  split.
  - apply H1; [lia|]. split; [vm_compute; tauto | lia].
  - intros H.
    assert (Hy : 1000 <= 2025 <= 2999)
      by (split; apply Nat.leb_le; vm_compute; reflexivity).
    destruct (proj1 (H2 Hy) H) as [_ [_ Hle]].
    apply Nat.leb_le in Hle. vm_compute in Hle. discriminate Hle.
Defined.

(** X5. [to_long] fails in [melt], before anything is reshaped: with
    [ValueError] when the table it is given has a column called Emissions
    already; otherwise with [KeyError] as soon as one identifier column, or
    one recognised quarter column of the table read at line 8, is not a
    column of the table it is given; and with some exception whenever an
    identifier column is named twice. *)
Theorem to_long_missing_column (df : DataFrame)
    (read_float : string -> option float) (_df : DataFrame)
    (id_vars : list string) :
  (In "Emissions"%string (columns _df) ->
   to_long df read_float _df id_vars = Raise ValueError) /\
  (~ In "Emissions"%string (columns _df) ->
   forall c : string, In c (id_vars ++ time_cols df) -> ~ In c (columns _df) ->
   to_long df read_float _df id_vars = Raise KeyError) /\
  (~ NoDup id_vars -> raises (to_long df read_float _df id_vars)).
Proof.
  split; [|split].
  - intros H. apply has_column_In in H.
    unfold to_long, to_long_before_filter, melt. rewrite H. reflexivity.
  - intros HE c Hin Hout.
    unfold to_long, to_long_before_filter, melt.
    destruct (has_column _df "Emissions") eqn:E;
      [apply has_column_In in E; contradiction|].
    destruct (forallb (has_column _df) (id_vars ++ time_cols df)) eqn:F;
      [|reflexivity].
    rewrite forallb_forall in F. apply F, has_column_In in Hin. contradiction.
  - intros Hdup. unfold to_long, to_long_before_filter, melt.
    destruct (has_column _df "Emissions"); [eexists; reflexivity|].
    destruct (negb _); [eexists; reflexivity|].
    destruct (pop_id_vars_repeated
                (unique (id_vars ++ time_cols df)) id_vars
                ((Z.of_nat (length (unique (id_vars ++ time_cols df)))
                  - Z.of_nat (length id_vars) <? 0)%Z && (0 <? nrows _df)) Hdup)
      as [e He].
    rewrite He. exists e. reflexivity.
Qed.

Lemma to_long_missing_column_witness :
  to_long sample read_digits (sample ++ [("Emissions"%string, [])])
    ["Country"; "Industry"]%string = Raise ValueError /\
  to_long sample read_digits sample ["Country"; "Sector"]%string = Raise KeyError /\
  to_long sample read_digits [("Country"%string, [VStr "AT"])] ["Country"]%string
  = Raise KeyError /\
  raises (to_long sample read_digits sample ["Country"; "Country"]%string).
Proof.
  split; [|split; [|split]].
  - apply (proj1 (to_long_missing_column sample read_digits
                    (sample ++ [("Emissions"%string, [])])
                    ["Country"; "Industry"]%string)).
    vm_compute. tauto.
  - apply (proj1 (proj2 (to_long_missing_column sample read_digits sample
                           ["Country"; "Sector"]%string))
             ltac:(vm_compute; intuition discriminate) "Sector"%string);
      [apply in_or_app; left; right; left; reflexivity
      | vm_compute; intuition discriminate].
  - apply (proj1 (proj2 (to_long_missing_column sample read_digits
                           [("Country"%string, [VStr "AT"])] ["Country"]%string))
             ltac:(vm_compute; intuition discriminate) "2015Q3"%string);
      [vm_compute; tauto | vm_compute; intuition discriminate].
  - apply (proj2 (proj2 (to_long_missing_column sample read_digits sample
                           ["Country"; "Country"]%string))).
    intros H. inversion H as [|? ? Hno _]. apply Hno. left. reflexivity.
Defined.

(** X7. On a table with distinct column names, none of them Emissions, whose
    recognised columns bear readable quarter labels, [to_long] called on
    distinct identifier columns that are no quarter columns loses no row to
    the year filter of line 43: its result is the frame of lines 39-42
    itself, N * M rows, the identifier columns tiled, every label replaced by
    its quarter end and the value cells coerced by [to_numeric]. *)
Theorem to_long_keeps_every_row (df : DataFrame)
    (read_float : string -> option float) (_df : DataFrame)
    (id_vars : list string) :
  well_formed _df ->
  id_vars <> [] ->
  NoDup (id_vars ++ time_cols df) ->
  incl (id_vars ++ time_cols df) (columns _df) ->
  Forall (fun c => exists t, quarter_end_of_label c = Ok t) (time_cols df) ->
  ~ In "Quarter"%string id_vars -> ~ In "Emissions"%string (columns _df) ->
  let N := length (time_cols df) in
  let M := nrows _df in
  exists (ts : list Timestamp) (out : DataFrame),
    mapM quarter_end_of_label (time_cols df) = Ok ts /\
    out = map (fun col => (col, tile (values_of _df col) N)) id_vars
          ++ [("Quarter"%string, flat_map (fun t => repeat (VTime t) M) ts);
              ("Emissions"%string,
               to_numeric read_float (flat_map (values_of _df) (time_cols df)))] /\
    to_long_before_filter df read_float _df id_vars = Ok out /\
    to_long df read_float _df id_vars = Ok out /\
    Forall (fun col => length (snd col) = N * M) out.
Proof.
  intros Hwf _. exact (to_long_runs df read_float _df id_vars Hwf).
Qed.

Lemma to_long_keeps_every_row_witness :
  exists out,
    to_long sample read_digits sample ["Country"; "Industry"]%string = Ok out /\
    to_long_before_filter sample read_digits sample ["Country"; "Industry"]%string
    = Ok out /\
    Forall (fun col => length (snd col) = 2 * 3) out.
Proof.
  assert (Htc : time_cols sample = ["2015Q3"; "2024Q4"]%string)
    by (vm_compute; reflexivity).
  destruct (to_long_keeps_every_row sample read_digits sample
              ["Country"; "Industry"]%string)
    as (ts & out & _ & _ & B & E & H).
  - split; [vm_compute; repeat constructor; simpl; intuition discriminate
           | vm_compute; repeat constructor].
  - discriminate.
  - rewrite Htc. vm_compute. repeat constructor; simpl; intuition discriminate.
  - rewrite Htc. intros c Hc. simpl in Hc. vm_compute. intuition.
  - rewrite Htc. repeat constructor; eexists; vm_compute; reflexivity.
  - simpl. intuition discriminate.
  - vm_compute. intuition discriminate.
  - exists out. split; [exact E|]. split; [exact B|].
    rewrite Htc in H. exact H.
Defined.

(** X8. With no recognised quarter column, or with no row, [to_long] called
    on distinct identifier columns of a table without a column Emissions
    raises nothing and returns its columns empty. *)
Theorem to_long_empty (df : DataFrame)
    (read_float : string -> option float) (_df : DataFrame)
    (id_vars : list string) :
  id_vars <> [] ->
  NoDup id_vars ->
  incl (id_vars ++ time_cols df) (columns _df) ->
  ~ In "Quarter"%string id_vars -> ~ In "Emissions"%string (columns _df) ->
  time_cols df = [] \/ nrows _df = 0 ->
  to_long df read_float _df id_vars
  = Ok (map (fun col => (col, [])) id_vars
        ++ [("Quarter"%string, []); ("Emissions"%string, [])]).
Proof.
  intros _ Hnd Hin HQ HE' Hemp.
  assert (HE : ~ In "Emissions"%string id_vars).
  { intros H. apply HE', Hin, in_or_app. left. exact H. }
  destruct (melt_Ok_some _df id_vars (time_cols df) "Quarter" "Emissions" HE' Hin Hnd)
    as (rest & K & Hrest & Hm).
  assert (Hlab : flat_map (fun c => repeat (VStr c) (nrows _df)) rest = []).
  { destruct Hemp as [E|E].
    - destruct rest as [|c r]; [reflexivity|]. exfalso.
      specialize (Hrest c (or_introl eq_refl)). rewrite E in Hrest. exact Hrest.
    - rewrite E. clear. induction rest as [|c l IH]; simpl; [reflexivity | exact IH]. }
  unfold to_long.
  rewrite (to_long_before_filter_melted df read_float _df id_vars rest K Hm HQ HE).
  rewrite Hlab. cbn [mapM bind map]. unfold getitem.
  rewrite lookup_after_ids by exact HQ.
  rewrite lookup_cons, String.eqb_refl. cbn [bind mapM map].
  unfold boolean_index. rewrite map_app, map_map. simpl.
  reflexivity.
Qed.

Lemma to_long_empty_witness :
  to_long [("Country"%string, [VStr "AT"]); ("2009Q4"%string, [VFloat 1])]
    read_digits
    [("Country"%string, [VStr "AT"]); ("2009Q4"%string, [VFloat 1])]
    ["Country"]%string
  = Ok [("Country"%string, []); ("Quarter"%string, []); ("Emissions"%string, [])].
Proof.
  apply (to_long_empty _ read_digits _ ["Country"]%string).
  - discriminate.
  - repeat constructor. simpl. tauto.
  - intros c Hc. vm_compute in Hc. vm_compute. intuition.
  - simpl. intuition discriminate.
  - vm_compute. intuition discriminate.
  - left. vm_compute. reflexivity.
Defined.

End ReshapeFurther.

(* ================================================================== *)
(** * The rows of totals and of sectors, and the short names *)

Section PipelineFacts.

Lemma columns_boolean_index (frame : DataFrame) (mask : list bool) :
  columns (boolean_index frame mask) = columns frame.
Proof.
  unfold columns, boolean_index. rewrite map_map. reflexivity.
Qed.

Lemma values_of_boolean_index (frame : DataFrame) (mask : list bool) (name : string) :
  values_of (boolean_index frame mask) name = select mask (values_of frame name).
Proof.
  unfold values_of. rewrite lookup_boolean_index.
  destruct (lookup frame name); simpl; [reflexivity|].
  destruct mask; reflexivity.
Qed.

(** The rows kept by a mask are as many as the mask has true entries. *)
Lemma length_select {A : Type} (mask : list bool) (l : list A) :
  length l = length mask ->
  length (select mask l) = length (filter (fun b => b) mask).
Proof.
  revert l. induction mask as [|b m IH]; intros [|x l] H; simpl in *;
    try reflexivity; try discriminate.
  destruct b; simpl; rewrite IH by lia; reflexivity.
Qed.

Lemma length_filter_negb {A : Type} (p : A -> bool) (l : list A) :
  length (filter (fun b => b) (map p l))
  + length (filter (fun b => b) (map (fun x => negb (p x)) l)) = length l.
Proof.
  induction l as [|x l IH]; simpl; [reflexivity|].
  destruct (p x); simpl; lia.
Qed.

Lemma nrows_In (frame : DataFrame) (name : string) :
  well_formed frame -> In name (columns frame) ->
  exists s, lookup frame name = Some s /\ length s = nrows frame.
Proof.
  intros [_ Hlen] Hin. destruct (lookup_In frame name Hin) as (s & L & I).
  exists s. split; [exact L|]. rewrite Forall_forall in Hlen. apply (Hlen _ I).
Qed.

Lemma well_formed_boolean_index (frame : DataFrame) (mask : list bool) :
  well_formed frame -> length mask = nrows frame ->
  well_formed (boolean_index frame mask) /\
  (frame <> [] ->
   nrows (boolean_index frame mask) = length (filter (fun b => b) mask)).
Proof.
  intros [Hnd Hlen] Hm.
  assert (Hsel : Forall (fun c => length (snd c) = length (filter (fun b => b) mask))
                   (boolean_index frame mask)).
  { unfold boolean_index. rewrite Forall_map.
    eapply Forall_impl; [|exact Hlen]. intros c Hc. simpl.
    apply length_select. rewrite Hc, Hm. reflexivity. }
  assert (Hrows : frame <> [] ->
            nrows (boolean_index frame mask) = length (filter (fun b => b) mask)).
  { destruct frame as [|[n s] rest]; [congruence|]. intros _.
    inversion Hsel as [|c l Hc _]; subst. exact Hc. }
  split; [|exact Hrows]. split.
  - rewrite columns_boolean_index. exact Hnd.
  - destruct frame as [|c rest]; [constructor|].
    rewrite Hrows by discriminate. exact Hsel.
Qed.

Lemma dict_get_In (d : list (string * string)) (k v : string) :
  dict_get d k = Some v -> In (k, v) d.
Proof.
  induction d as [|[k' v'] r IH]; simpl; [discriminate|].
  destruct (String.eqb k' k) eqn:E.
  - apply String.eqb_eq in E. intros H. injection H as <-. subst. auto.
  - auto.
Qed.

(** X9. The short names never merge two industries of the dictionary, leave
    an industry outside the dictionary (and a missing cell) as it is, and
    applying them twice is applying them once. *)
Theorem short_name_faithful :
  (forall a b : string,
     In a (map fst SHORT) -> In b (map fst SHORT) ->
     short_name (VStr a) = short_name (VStr b) -> a = b) /\
  (forall s : string, ~ In s (map fst SHORT) -> short_name (VStr s) = VStr s) /\
  (forall f : float, short_name (VFloat f) = VFloat f) /\
  (forall v : value, short_name (short_name v) = short_name v).
Proof.
  split; [|split; [|split]].
  - intros a b Ha Hb. simpl in Ha, Hb.
    repeat (destruct Ha as [<-|Ha]; [|]); try contradiction;
      repeat (destruct Hb as [<-|Hb]; [|]); try contradiction;
      vm_compute; intros H; try reflexivity; discriminate H.
  - intros s Hs. unfold short_name.
    destruct (dict_get SHORT s) as [t|] eqn:E; [|reflexivity].
    exfalso. apply Hs. apply dict_get_In in E.
    apply (in_map fst) in E. exact E.
  - reflexivity.
  - intros [s|f|z|t|]; try reflexivity. unfold short_name at 2.
    destruct (dict_get SHORT s) as [t|] eqn:E.
    + apply dict_get_In in E. simpl in E.
      repeat (destruct E as [E|E]; [injection E as <- <-; reflexivity|]).
      contradiction.
    + unfold short_name. rewrite E. reflexivity.
Qed.

Lemma select_filter {A : Type} (p : A -> bool) (l : list A) :
  select (map p l) l = filter p l.
Proof.
  induction l as [|x l IH]; simpl; [reflexivity|].
  destruct (p x); rewrite IH; reflexivity.
Qed.

Lemma eq_text_true (v : value) (s : string) : eq_text v s = true <-> v = VStr s.
Proof.
  destruct v as [t|f|z|t|]; simpl; split; try discriminate.
  - intros H. apply String.eqb_eq in H. congruence.
  - intros H. injection H as ->. apply String.eqb_refl.
Qed.

Lemma totals_run (df : DataFrame) (industry : Series) :
  lookup df "Industry" = Some industry ->
  totals df = Ok (boolean_index df (map (fun v => eq_text v TOTAL) industry)).
Proof. intros H. unfold totals, getitem. rewrite H. reflexivity. Qed.

Lemma sectors_run (df : DataFrame) (industry : Series) :
  lookup df "Industry" = Some industry ->
  sectors df
  = Ok (setitem (boolean_index df (map (fun v => negb (eq_text v TOTAL)) industry))
          "Industry_short"
          (map short_name
             (select (map (fun v => negb (eq_text v TOTAL)) industry) industry))).
Proof.
  intros H. unfold sectors, getitem. rewrite H. simpl.
  rewrite lookup_boolean_index, H. reflexivity.
Qed.

(** X10. The rows of [totals] and the rows of [sectors] split the table:
    every row is in exactly one of them, the totals being the rows whose
    Industry is the total label and the sectors all the others. *)
Theorem totals_sectors_partition (df : DataFrame) :
  well_formed df ->
  In "Industry"%string (columns df) ->
  exists t s : DataFrame,
    totals df = Ok t /\ sectors df = Ok s /\
    length (values_of t "Industry") + length (values_of s "Industry") = nrows df /\
    Forall (fun v => v = VStr TOTAL) (values_of t "Industry") /\
    Forall (fun v => v <> VStr TOTAL) (values_of s "Industry").
Proof.
  intros Hwf Hin.
  destruct (nrows_In df "Industry" Hwf Hin) as (industry & L & Hlen).
  eexists; eexists.
  split; [apply (totals_run df industry L)|].
  split; [apply (sectors_run df industry L)|].
  assert (Ht : values_of (boolean_index df (map (fun v => eq_text v TOTAL) industry))
                 "Industry" = filter (fun v => eq_text v TOTAL) industry).
  { rewrite values_of_boolean_index. unfold values_of. rewrite L.
    apply select_filter. }
  assert (Hs : values_of
                 (setitem (boolean_index df
                             (map (fun v => negb (eq_text v TOTAL)) industry))
                    "Industry_short"
                    (map short_name
                       (select (map (fun v => negb (eq_text v TOTAL)) industry)
                          industry))) "Industry"
               = filter (fun v => negb (eq_text v TOTAL)) industry).
  { unfold values_of. rewrite lookup_setitem_other by discriminate.
    rewrite lookup_boolean_index, L. simpl. apply select_filter. }
  rewrite Ht, Hs. split; [|split].
  - rewrite <- Hlen. clear.
    induction industry as [|v l IH]; simpl; [reflexivity|].
    destruct (eq_text v TOTAL); simpl; lia.
  - apply Forall_forall. intros v Hv. apply filter_In in Hv.
    apply eq_text_true, Hv.
  - apply Forall_forall. intros v Hv E. apply filter_In in Hv.
    destruct Hv as [_ Hv]. apply eq_text_true in E. rewrite E in Hv. discriminate Hv.
Qed.

Lemma totals_sectors_partition_witness :
  exists t s : DataFrame,
    totals emissions = Ok t /\ sectors emissions = Ok s /\
    length (values_of t "Industry") + length (values_of s "Industry") = 4.
Proof.
  destruct (totals_sectors_partition emissions) as (t & s & Ht & Hs & H & _).
  - split; [vm_compute; repeat constructor; simpl; intuition discriminate
           | vm_compute; repeat constructor].
  - vm_compute. tauto.
  - exists t, s. auto.
Defined.

(** X11. [sectors] adds the column Industry_short and changes no other
    column: each column of the table is kept on the rows that are not totals,
    and every Industry_short cell is the short name of the Industry cell of
    its row. *)
Theorem sectors_industry_short (df s : DataFrame) :
  sectors df = Ok s ->
  exists industry : Series,
    lookup df "Industry" = Some industry /\
    (forall c : string, c <> "Industry_short"%string ->
       lookup s c
       = option_map (select (map (fun v => negb (eq_text v TOTAL)) industry))
           (lookup df c)) /\
    lookup s "Industry_short" = Some (map short_name (values_of s "Industry")).
Proof.
  intros H. destruct (lookup df "Industry") as [industry|] eqn:L.
  - rewrite (sectors_run df industry L) in H. injection H as <-.
    exists industry. split; [reflexivity|]. split.
    + intros c Hc. rewrite lookup_setitem_other by congruence.
      apply lookup_boolean_index.
    + rewrite lookup_setitem_same. unfold values_of.
      rewrite lookup_setitem_other by discriminate.
      rewrite lookup_boolean_index, L. reflexivity.
  - unfold sectors, getitem in H. rewrite L in H. discriminate H.
Qed.

Lemma sectors_industry_short_witness :
  exists s,
    sectors emissions = Ok s /\
    lookup s "Industry_short" = Some [VStr "Energy"; VStr "Mining"].
Proof.
  destruct (sectors emissions) as [s|e] eqn:E; [|vm_compute in E; discriminate E].
  exists s. split; [reflexivity|].
  destruct (sectors_industry_short emissions s E) as (industry & _ & _ & H).
  rewrite H. vm_compute in E. injection E as <-. vm_compute. reflexivity.
Defined.

Lemma In_tile {A : Type} (l : list A) (n : nat) (x : A) :
  In x (tile l n) -> In x l.
Proof.
  unfold tile. induction n as [|n IH]; simpl; [tauto|].
  rewrite in_app_iff. tauto.
Qed.

Lemma time_cols_incl (df : DataFrame) : incl (time_cols df) (columns df).
Proof. unfold time_cols. apply incl_filter. Qed.

Lemma time_cols_prefix (df : DataFrame) (c : string) :
  In c (time_cols df) -> startswith c year_prefixes = true.
Proof. unfold time_cols. rewrite filter_In. tauto. Qed.

(** Identifiers that do not start with a year are distinct from the
    recognised quarter columns, themselves distinct in a table read from a
    CSV file. *)
Lemma ids_then_time_cols (df : DataFrame) (id_vars : list string) :
  well_formed df -> NoDup id_vars ->
  Forall (fun c => startswith c year_prefixes = false) id_vars ->
  NoDup (id_vars ++ time_cols df).
Proof.
  intros [Hnd _] Hids Hno. apply NoDup_app; [exact Hids | |].
  - unfold time_cols. apply NoDup_filter, Hnd.
  - intros c Hc Htc. rewrite Forall_forall in Hno.
    apply time_cols_prefix in Htc. rewrite (Hno c Hc) in Htc. discriminate Htc.
Qed.

(** X12. Line 49 on a table read from a CSV file with the columns Country
    and Industry, none called Emissions, and readable labels on its
    recognised columns: the reshape of the totals raises nothing and holds,
    under the columns Country, Industry, Quarter and Emissions, one row for
    every recognised column and every total row, each with the total label
    as its Industry. *)
Theorem long_total_rows (df : DataFrame) (read_float : string -> option float) :
  well_formed df ->
  In "Country"%string (columns df) ->
  In "Industry"%string (columns df) ->
  ~ In "Emissions"%string (columns df) ->
  Forall (fun c => exists t, quarter_end_of_label c = Ok t) (time_cols df) ->
  exists t out : DataFrame,
    totals df = Ok t /\
    long_total df read_float = Ok out /\
    columns out = ["Country"; "Industry"; "Quarter"; "Emissions"]%string /\
    Forall (fun col => length (snd col) = length (time_cols df) * nrows t) out /\
    Forall (fun v => v = VStr TOTAL) (values_of out "Industry").
Proof.
  intros Hwf HC HI HE Hlab.
  destruct (nrows_In df "Industry" Hwf HI) as (industry & L & Hlen).
  set (mask := map (fun v => eq_text v TOTAL) industry).
  assert (Hmask : length mask = nrows df)
    by (unfold mask; rewrite length_map; exact Hlen).
  destruct (well_formed_boolean_index df mask Hwf Hmask) as [Hwt _].
  destruct (to_long_runs df read_float (boolean_index df mask)
              ["Country"; "Industry"]%string) as (ts & out & _ & Hout & _ & Hrun & Hrows).
  - exact Hwt.
  - apply (ids_then_time_cols df _ Hwf).
    + repeat constructor; simpl; intuition discriminate.
    + repeat constructor.
  - rewrite columns_boolean_index. intros c Hc. apply in_app_or in Hc.
    destruct Hc as [[<-|[<-|[]]]|Hc]; [assumption | assumption |].
    apply time_cols_incl, Hc.
  - exact Hlab.
  - simpl. intuition discriminate.
  - rewrite columns_boolean_index. exact HE.
  - exists (boolean_index df mask), out.
    split; [apply (totals_run df industry L)|].
    split; [unfold long_total; rewrite (totals_run df industry L); exact Hrun|].
    split; [rewrite Hout; reflexivity|].
    split; [exact Hrows|].
    assert (Hind : values_of out "Industry"
                   = tile (values_of (boolean_index df mask) "Industry")
                       (length (time_cols df))).
    { rewrite Hout. unfold values_of at 1.
      rewrite (lookup_among_ids
                 (fun col => tile (values_of (boolean_index df mask) col)
                               (length (time_cols df))))
        by (simpl; tauto).
      reflexivity. }
    rewrite Hind. apply Forall_forall. intros v Hv. apply In_tile in Hv.
    rewrite values_of_boolean_index in Hv.
    revert Hv. unfold values_of. rewrite L. unfold mask.
    rewrite select_filter, filter_In. intros [_ H].
    apply eq_text_true, H.
Qed.

Lemma long_total_rows_witness :
  exists out,
    long_total emissions read_digits = Ok out /\
    columns out = ["Country"; "Industry"; "Quarter"; "Emissions"]%string /\
    Forall (fun v => v = VStr TOTAL) (values_of out "Industry").
Proof.
  destruct (long_total_rows emissions read_digits) as (t & out & _ & E & Hc & _ & H).
  - split; [vm_compute; repeat constructor; simpl; intuition discriminate
           | vm_compute; repeat constructor].
  - vm_compute. tauto.
  - vm_compute. tauto.
  - vm_compute. intuition discriminate.
  - replace (time_cols emissions) with ["2010Q1"; "2010Q2"]%string
      by (vm_compute; reflexivity).
    repeat constructor; eexists; vm_compute; reflexivity.
  - exists out. auto.
Defined.

Lemma setitem_new (frame : DataFrame) (name : string) (s : Series) :
  ~ In name (columns frame) -> setitem frame name s = frame ++ [(name, s)].
Proof.
  induction frame as [|[n old] rest IH]; simpl; intros H; [reflexivity|].
  destruct (String.eqb n name) eqn:E.
  - apply String.eqb_eq in E. tauto.
  - rewrite IH by tauto. reflexivity.
Qed.

Lemma well_formed_new_column (frame : DataFrame) (name : string) (s : Series) :
  well_formed frame -> frame <> [] ->
  ~ In name (columns frame) -> length s = nrows frame ->
  well_formed (frame ++ [(name, s)]) /\ nrows (frame ++ [(name, s)]) = nrows frame.
Proof.
  intros [Hnd Hlen] Hne Hnew Hs.
  assert (Hrows : nrows (frame ++ [(name, s)]) = nrows frame)
    by (destruct frame as [|[n c] rest]; [congruence | reflexivity]).
  split; [|exact Hrows]. split.
  - unfold columns. rewrite map_app. simpl.
    apply NoDup_app; [exact Hnd | repeat constructor; simpl; tauto |].
    intros x Hx [<-|[]]. exact (Hnew Hx).
  - rewrite Hrows. apply Forall_app. split; [exact Hlen|].
    constructor; [exact Hs | constructor].
Qed.

Lemma map_tile {A B : Type} (f : A -> B) (l : list A) (n : nat) :
  map f (tile l n) = tile (map f l) n.
Proof.
  unfold tile. rewrite concat_map, map_repeat. reflexivity.
Qed.

(** X13. Lines 78-81 on a table read from a CSV file with the column
    Industry, none called Industry_short or Emissions, and readable labels on
    its recognised columns: the reshape of the sectors raises nothing and
    holds, under the columns Industry, Industry_short, Quarter and Emissions,
    one row for every recognised column and every row that is not a total;
    no row of it is a total, and on every row Industry_short is the short
    name of Industry. *)
Theorem sector_long_rows (df : DataFrame) (read_float : string -> option float) :
  well_formed df ->
  In "Industry"%string (columns df) ->
  ~ In "Industry_short"%string (columns df) ->
  ~ In "Emissions"%string (columns df) ->
  Forall (fun c => exists t, quarter_end_of_label c = Ok t) (time_cols df) ->
  exists s out : DataFrame,
    sectors df = Ok s /\
    sector_long df read_float = Ok out /\
    columns out = ["Industry"; "Industry_short"; "Quarter"; "Emissions"]%string /\
    Forall (fun col => length (snd col) = length (time_cols df) * nrows s) out /\
    Forall (fun v => v <> VStr TOTAL) (values_of out "Industry") /\
    values_of out "Industry_short" = map short_name (values_of out "Industry").
Proof.
  intros Hwf HI HS HE Hlab.
  destruct (nrows_In df "Industry" Hwf HI) as (industry & L & Hlen).
  set (mask := map (fun v => negb (eq_text v TOTAL)) industry).
  assert (Hmask : length mask = nrows df)
    by (unfold mask; rewrite length_map; exact Hlen).
  assert (Hne : df <> []) by (intros E; rewrite E in HI; exact HI).
  destruct (well_formed_boolean_index df mask Hwf Hmask) as [Hwb Hrows].
  specialize (Hrows Hne).
  set (short := map short_name (select mask industry)).
  assert (Hrun : sectors df = Ok (boolean_index df mask ++ [("Industry_short"%string, short)])).
  { rewrite (sectors_run df industry L). fold mask. fold short.
    rewrite setitem_new; [reflexivity|].
    rewrite columns_boolean_index. exact HS. }
  destruct (well_formed_new_column (boolean_index df mask) "Industry_short" short)
    as [Hws Hsrows].
  - exact Hwb.
  - destruct df; [congruence | discriminate].
  - rewrite columns_boolean_index. exact HS.
  - unfold short. rewrite length_map, Hrows. apply length_select.
    rewrite Hlen, Hmask. reflexivity.
  - set (s := boolean_index df mask ++ [("Industry_short"%string, short)]) in *.
    assert (Hcols : columns s = (columns df ++ ["Industry_short"%string])%list).
    { unfold s, columns. rewrite map_app. fold (columns (boolean_index df mask)).
      rewrite columns_boolean_index. reflexivity. }
    assert (Hind : values_of s "Industry" = select mask industry).
    { unfold s, values_of.
      destruct (lookup_In (boolean_index df mask) "Industry") as (x & Lx & Ix).
      { rewrite columns_boolean_index. exact HI. }
      assert (Lx' := Lx). rewrite lookup_boolean_index, L in Lx'. simpl in Lx'.
      injection Lx' as <-.
      clear Ix. revert Lx. generalize (boolean_index df mask). intros f Lf.
      induction f as [|[n c] rest IH]; [discriminate Lf|].
      simpl. rewrite lookup_cons in *. destruct (String.eqb n "Industry").
      - injection Lf as <-. reflexivity.
      - apply IH, Lf. }
    assert (Hshort : values_of s "Industry_short" = short).
    { transitivity
        (values_of (setitem (boolean_index df mask) "Industry_short" short)
           "Industry_short").
      - f_equal. unfold s. symmetry. apply setitem_new.
        rewrite columns_boolean_index. exact HS.
      - unfold values_of. rewrite lookup_setitem_same. reflexivity. }
    destruct (to_long_runs df read_float s
                ["Industry"; "Industry_short"]%string) as (ts & out & _ & Hout & _ & Hto & Hr).
    + exact Hws.
    + apply (ids_then_time_cols df _ Hwf).
      * repeat constructor; simpl; intuition discriminate.
      * repeat constructor.
    + rewrite Hcols. intros c Hc. apply in_app_or in Hc.
      destruct Hc as [[<-|[<-|[]]]|Hc]; apply in_or_app;
        [left; exact HI | right; left; reflexivity |].
      left. apply time_cols_incl, Hc.
    + exact Hlab.
    + simpl. intuition discriminate.
    + rewrite Hcols. intros H. apply in_app_or in H.
      destruct H as [H|[H|[]]]; [exact (HE H) | discriminate H].
    + exists s, out.
      split; [exact Hrun|].
      split; [unfold sector_long; rewrite Hrun; exact Hto|].
      split; [rewrite Hout; reflexivity|].
      split; [exact Hr|].
      assert (H1 : values_of out "Industry"
                   = tile (select mask industry) (length (time_cols df))).
      { rewrite Hout. unfold values_of at 1.
        rewrite (lookup_among_ids
                   (fun col => tile (values_of s col) (length (time_cols df))))
          by (simpl; tauto).
        rewrite Hind. reflexivity. }
      assert (H2 : values_of out "Industry_short"
                   = tile short (length (time_cols df))).
      { rewrite Hout. unfold values_of at 1.
        rewrite (lookup_among_ids
                   (fun col => tile (values_of s col) (length (time_cols df))))
          by (simpl; tauto).
        rewrite Hshort. reflexivity. }
      rewrite H1, H2. split.
      * apply Forall_forall. intros v Hv E. apply In_tile in Hv.
        unfold mask in Hv. rewrite select_filter, filter_In in Hv.
        destruct Hv as [_ Hv]. apply eq_text_true in E. rewrite E in Hv.
        discriminate Hv.
      * unfold short. symmetry. apply map_tile.
Qed.

Lemma sector_long_rows_witness :
  exists out,
    sector_long emissions read_digits = Ok out /\
    values_of out "Industry_short"
    = [VStr "Energy"; VStr "Mining"; VStr "Energy"; VStr "Mining"].
Proof.
  destruct (sector_long_rows emissions read_digits)
    as (s & out & _ & E & _ & _ & _ & H).
  - split; [vm_compute; repeat constructor; simpl; intuition discriminate
           | vm_compute; repeat constructor].
  - vm_compute. tauto.
  - vm_compute. intuition discriminate.
  - vm_compute. intuition discriminate.
  - replace (time_cols emissions) with ["2010Q1"; "2010Q2"]%string
      by (vm_compute; reflexivity).
    repeat constructor; eexists; vm_compute; reflexivity.
  - exists out. split; [exact E|].
    rewrite H. vm_compute in E. injection E as <-. vm_compute. reflexivity.
Defined.

End PipelineFacts.
